(** * ansibleschemas.__main__ : documentation dump and type mapping

    A shallow embedding of [src/ansibleschemas/__main__.py].

    - Python exceptions are an inductive type [exn]; a fallible
      computation returns [res A], which is either [Ok a] or [Raise e].
    - Code that touches the host (the file system, standard output, the
      progress bar, child processes) is written in the monad
      [M A := state -> res A * state]: effects done before an exception
      is raised stay in the state, as they do in Python.
    - The file system is a finite map from relative paths to file
      contents.  Every path can be written and removed: permission and
      missing-directory failures of the host are outside the model.
    - [json.loads] and [json.dumps] belong to the Python standard
      library, not to this repository: they are the two operations of
      the class [JsonLib].  Likewise the equality of two Python values
      and the text of a dict are operations of the class [PyValues],
      and the schema of a model class is a field of [builder].
      Everything is stated for arbitrary instances. *)

From Stdlib Require Import ZArith Ascii String.
From stdpp Require Import gmap strings list fin_maps pretty.

#[local] Set Warnings "-register-all,-clear-no-such-hyp".
#[local] Open Scope string_scope.

(** ** Exceptions and results *)

Inductive exn : Type :=
| NotImplementedError (msg : string)
| CalledProcessError (returncode : Z) (cmd : list string)
| JSONDecodeError
| KeyError (key : string)
| TypeError
| AttributeError
| OSError
| RequestException.

Inductive res (A : Type) : Type :=
| Ok (a : A)
| Raise (e : exn).

Arguments Ok {A} a.
Arguments Raise {A} e.

Definition res_bind {A B : Type} (r : res A) (k : A -> res B) : res B :=
  match r with
  | Ok a => k a
  | Raise e => Raise e
  end.

(** ** The type mapper *)

(** [map_type], lines 95-111.  [x in [a, b, c]] compares [x] with each
    element in turn. *)
Definition map_type (ansible_type : string) : res string :=
  if bool_decide (ansible_type ∈ ["str"; "filename"; "path"; "raw"; "sid"]) then
    Ok "string"
  else if bool_decide (ansible_type = "list") then
    Ok "array"
  else if bool_decide (ansible_type = "bool") then
    Ok "boolean"
  else if bool_decide (ansible_type = "int") then
    Ok "integer"
  else if bool_decide (ansible_type ∈ ["dict"; "jsonarg"; "json"]) then
    Ok "object"
  else if bool_decide (ansible_type = "float") then
    Ok "number"
  else
    Raise (NotImplementedError
             ("Unable to map ansible type " +:+ ansible_type +:+ " to JSON Schema type.")).

(** The twelve source tags of the enumeration, in the order of the
    specification. *)
Definition source_tags : list string :=
  ["str"; "filename"; "path"; "raw"; "sid"; "list"; "bool"; "int";
   "dict"; "jsonarg"; "json"; "float"].

(** ** JSON values

    What [json.loads] returns: [None], a [bool], an [int], a [float], a
    [str], a [list] or a [dict] with string keys.  A Python float is an
    IEEE binary64 number: a [JFloat m e] stands for [m * 2^e], and the
    three special values the parser accepts are listed apart.  Every
    object [json.loads] builds is fresh, so no two parts of a document
    are aliased and updating a nested dict in place is the same as
    rebuilding the value around it.  Python dicts keep insertion order;
    the only consumer here is [json.dumps(..., sort_keys=True)], whose
    output does not depend on it, so a dict is a finite map. *)
Inductive pyfloat : Type :=
| FFinite (m e : Z)
| FInfinity (negative : bool)
| FNaN.

Inductive json : Type :=
| JNull
| JBool (b : bool)
| JInt (n : Z)
| JFloat (x : pyfloat)
| JStr (s : string)
| JArr (items : list json)
| JObj (fields : gmap string json).

(** [obj[key]] with a [str] key.  A dict raises [KeyError] on a missing
    key; a list or a str wants an integer index and every other value is
    not subscriptable: [TypeError] each time. *)
Definition getitem (obj : json) (key : string) : res json :=
  match obj with
  | JObj fields =>
      match fields !! key with
      | Some v => Ok v
      | None => Raise (KeyError key)
      end
  | _ => Raise TypeError
  end.

(** [obj.pop(key, None)], the result of the call dropped: the value
    [obj] has afterwards.  [list.pop] takes at most one argument
    ([TypeError]); the other values have no [pop] at all
    ([AttributeError]). *)
Definition pop_default (obj : json) (key : string) : res json :=
  match obj with
  | JObj fields => Ok (JObj (delete key fields))
  | JArr _ => Raise TypeError
  | _ => Raise AttributeError
  end.

(** [obj[key] = v] on a dict. *)
Definition setitem (obj : json) (key : string) (v : json) : json :=
  match obj with
  | JObj fields => JObj (<[key := v]> fields)
  | _ => obj
  end.

(** The statement [data[module]["doc"].pop(key, None)]: two look-ups,
    then the removal inside the dict they reach. *)
Definition pop_doc_field (data : json) (module key : string) : res json :=
  res_bind (getitem data module) (fun entry =>
  res_bind (getitem entry "doc") (fun doc =>
  res_bind (pop_default doc key) (fun doc' =>
  Ok (setitem data module (setitem entry "doc" doc'))))).

(** The [json] module of the Python standard library, as far as this
    file calls it: [json.loads(s)], with [None] for [JSONDecodeError],
    and [json.dumps(obj, indent=i, sort_keys=b)]. *)
Class JsonLib : Type := {
  json_loads : string -> option json;
  json_dumps : json -> nat -> bool -> string
}.

(** ** The host *)

(** How a child process ends: it could not be started, or it ran and
    left an exit status and its standard output as text. *)
Inductive completed : Type :=
| SpawnFailed
| Exited (returncode : Z) (stdout : string).

(** What the program is run against: the commands of the host, which
    end the same way each time they are run, the module catalogue
    [ansible_modules()], and the scheduler of the worker pool (see
    [run_ahead]). *)
Record world : Type := {
  spawn : list string -> completed;
  ansible_modules : list string;
  finished_early : nat -> bool
}.

(** The mutable part: files, lines printed so far, the paths opened for
    writing so far (oldest first), and the progress bar. *)
Record state : Type := {
  fs : gmap string string;
  printed : list string;
  opened : list string;
  bar_total : nat;
  bar_completed : nat
}.

Definition M (A : Type) : Type := state -> res A * state.

#[export] Instance M_ret : MRet M := fun A a st => (Ok a, st).

#[export] Instance M_bind : MBind M := fun A B k c st =>
  match c st with
  | (Ok a, st') => k a st'
  | (Raise e, st') => (Raise e, st')
  end.

Definition raise {A : Type} (e : exn) : M A := fun st => (Raise e, st).

Definition lift {A : Type} (r : res A) : M A := fun st => (r, st).

(** [try: body except subprocess.CalledProcessError: handler]. *)
Definition try_except_called_process_error (body handler : M unit) : M unit :=
  fun st =>
    match body st with
    | (Raise (CalledProcessError _ _), st') => handler st'
    | other => other
    end.

(** [for x in xs: body(x)]. *)
Fixpoint for_each {A : Type} (body : A -> M unit) (xs : list A) : M unit :=
  match xs with
  | [] => mret tt
  | x :: rest => body x;; for_each body rest
  end.

Definition with_fs (f : gmap string string -> gmap string string) (st : state) : state :=
  {| fs := f (fs st); printed := printed st; opened := opened st;
     bar_total := bar_total st; bar_completed := bar_completed st |}.

(** [print(line)]. *)
Definition print (line : string) : M unit :=
  fun st =>
    (Ok tt,
     {| fs := fs st; printed := printed st ++ [line]; opened := opened st;
        bar_total := bar_total st; bar_completed := bar_completed st |}).

(** [open(path, "w")]: the file is created or truncated. *)
Definition open_w (path : string) : M string :=
  fun st =>
    (Ok path,
     {| fs := <[path := EmptyString]> (fs st); printed := printed st;
        opened := opened st ++ [path];
        bar_total := bar_total st; bar_completed := bar_completed st |}).

(** [file.write(text)] on a file opened by [open_w]: the text goes to
    the end of the file. *)
Definition file_write (file text : string) : M unit :=
  fun st =>
    (Ok tt, with_fs (fun files => <[file := default EmptyString (files !! file) +:+ text]> files) st).

(** [os.remove(path)]. *)
Definition os_remove (path : string) : M unit :=
  fun st =>
    match fs st !! path with
    | Some _ => (Ok tt, with_fs (delete path) st)
    | None => (Raise OSError, st)
    end.

(** [subprocess.check_output(cmd, universal_newlines=True)]. *)
Definition check_output (w : world) (cmd : list string) : M string :=
  match spawn w cmd with
  | SpawnFailed => raise OSError
  | Exited returncode out =>
      if bool_decide (returncode = 0%Z) then mret out
      else raise (CalledProcessError returncode cmd)
  end.

(** ** Paths of the artifacts *)

Definition newline : string := String (Ascii.ascii_of_nat 10) EmptyString.

(** [f"data/modules/{module}.json"]. *)
Definition module_path (module : string) : string :=
  "data/modules/" +:+ module +:+ ".json".

Fixpoint drop_prefix (pre s : string) : option string :=
  match pre, s with
  | EmptyString, _ => Some s
  | String a pre', String b s' =>
      if bool_decide (a = b) then drop_prefix pre' s' else None
  | String _ _, EmptyString => None
  end.

Fixpoint ends_with (suffix s : string) : bool :=
  bool_decide (s = suffix) ||
  match s with
  | EmptyString => false
  | String _ s' => ends_with suffix s'
  end.

Fixpoint has_char (c : ascii) (s : string) : bool :=
  match s with
  | EmptyString => false
  | String a s' => bool_decide (a = c) || has_char c s'
  end.

Definition starts_with_char (c : ascii) (s : string) : bool :=
  match s with
  | EmptyString => false
  | String a _ => bool_decide (a = c)
  end.

Definition slash : ascii := "/"%char.
Definition dot : ascii := "."%char.

(** Whether [glob.glob('data/modules/*.json')] lists [path], on a POSIX
    host: the path lies in the directory itself (the star does not cross
    a [/]), its last component ends in [.json], and that component does
    not start with a dot (the [glob] module skips hidden names unless
    the pattern itself starts with a dot). *)
Definition glob_match (path : string) : bool :=
  match drop_prefix "data/modules/" path with
  | Some name =>
      negb (has_char slash name) && negb (starts_with_char dot name)
      && ends_with ".json" name
  | None => false
  end.

(** [glob.glob('data/modules/*.json')]: the existing files that match,
    in the order the directory is listed. *)
Definition glob_glob : M (list string) :=
  fun st => (Ok (filter (fun path => glob_match path) (map_to_list (fs st)).*1), st).

(** ** The module doc extractor *)

Definition skip_notice (module : string) : string :=
  "Module " +:+ module +:+ " skipped as it failed to export documentation.".

(** [dump_module_doc], lines 57-76. *)
Definition dump_module_doc `{JsonLib} (w : world) (module : string) : M string :=
  try_except_called_process_error
    (module_json ← check_output w ["ansible-doc"; "-j"; module];
     data ← lift (match json_loads module_json with
                  | Some data => Ok data
                  | None => Raise JSONDecodeError
                  end);
     data ← lift (pop_doc_field data module "filename");
     data ← lift (pop_doc_field data module "author");
     data ← lift (pop_doc_field data module "notes");
     data ← lift (pop_doc_field data module "examples");
     data ← lift (pop_doc_field data module "return");
     file ← open_w (module_path module);
     file_write file (json_dumps data 2 true);;
     file_write file newline)
    (print (skip_notice module));;
  mret module.

(** ** The orchestrator *)

(** [progress.add_task(description, total=n)]: the bar starts at zero;
    the identifier of the first task of a [Progress] is 0. *)
Definition progress_add_task (total : nat) : M nat :=
  fun st =>
    (Ok 0,
     {| fs := fs st; printed := printed st; opened := opened st;
        bar_total := total; bar_completed := 0 |}).

(** [progress.advance(task_id)]. *)
Definition progress_advance (task_id : nat) : M unit :=
  fun st =>
    (Ok tt,
     {| fs := fs st; printed := printed st; opened := opened st;
        bar_total := bar_total st; bar_completed := S (bar_completed st) |}).

(** The pool hands every task to its workers at once.  When the parent
    meets the exception of task [i] and leaves the [with] block, the
    pool is torn down: of the tasks after [i], those the scheduler had
    let finish by then have taken effect, and their results are lost. *)
Fixpoint run_ahead `{JsonLib} (w : world) (i : nat) (todo : list string)
    (st : state) : state :=
  match todo with
  | [] => st
  | module :: rest =>
      run_ahead w (S i) rest
        (if finished_early w i then (dump_module_doc w module st).2 else st)
  end.

(** [for result in pool.imap(dump_module_doc, modules): ...], lines
    90-92.  [imap] yields the results in the order of [modules]; the
    exception of a worker is raised again in the parent when its result
    is asked for.  The tasks are independent, so they are run here one
    after the other; the size of the pool, [multiprocessing.cpu_count()],
    changes how they overlap, not what they do. *)
Fixpoint imap_loop `{JsonLib} (w : world) (task_id i : nat)
    (todo results : list string) : M (list string) :=
  match todo with
  | [] => mret results
  | module :: rest =>
      fun st =>
        match dump_module_doc w module st with
        | (Ok result, st') =>
            (progress_advance task_id;;
             imap_loop w task_id (S i) rest (results ++ [result])) st'
        | (Raise e, st') => (Raise e, run_ahead w (S i) rest st')
        end
  end.

(** Lines 81-83: the reset. *)
Definition remove_artifacts : M unit :=
  files ← glob_glob;
  for_each os_remove files.

(** Lines 85-92: the dispatch; its value is the local [results]. *)
Definition collect_results `{JsonLib} (w : world) : M (list string) :=
  let modules := ansible_modules w in
  task_id ← progress_add_task (length modules);
  imap_loop w task_id 0 modules [].

(** [doc_dump], lines 79-92.  The function has no [return]: a call
    evaluates to Python's [None], which is [None] here, and the list
    [results] is dropped. *)
Definition doc_dump `{JsonLib} (w : world) : M (option (list string)) :=
  remove_artifacts;;
  results ← collect_results w;
  mret None.

(** ** The schema build driver *)

(** The model classes [main] imports, by name. *)
Inductive model : Type :=
| AnsibleLintModel
| GalaxyFileModel
| MetaModel
| MoleculeScenarioModel
| PlaybookFileModel
| RequirementsFileModel
| TasksListModel
| VarsModel
| ZuulConfigModel.

(** What [main] is run against: the working directory, as
    [os.getcwd()] returns it, and [model.schema_json(indent=i,
    sort_keys=b)], which belongs to the model classes and may raise. *)
Record builder : Type := {
  getcwd : string;
  schema_json : model -> nat -> bool -> res string
}.

(** [Path(dir) / name] as text, for a [name] without a slash: one
    separator between the two, none added after a directory that ends
    in one (the root). *)
Definition path_join (dir name : string) : string :=
  if ends_with "/" dir then dir +:+ name else dir +:+ "/" +:+ name.

(** [out_dir], line 27. *)
Definition out_dir (b : builder) : string := path_join (getcwd b) "f".

(** The two dict displays of [main], lines 119-140, in source order. *)
Definition schemas : list (string * model) :=
  [("ansible-lint", AnsibleLintModel); ("galaxy", GalaxyFileModel); ("meta", MetaModel);
   ("molecule", MoleculeScenarioModel); ("playbook", PlaybookFileModel);
   ("requirements", RequirementsFileModel); ("tasks", TasksListModel);
   ("vars", VarsModel); ("zuul", ZuulConfigModel)].

Definition schema_filenames : list (string * string) :=
  [("ansible-lint", "ansible-lint"); ("galaxy", "ansible-galaxy"); ("meta", "ansible-meta");
   ("molecule", "molecule"); ("playbook", "ansible-playbook");
   ("requirements", "ansible-requirements"); ("tasks", "ansible-tasks");
   ("vars", "ansible-vars"); ("zuul", "zuul")].

(** [d[key]] on a dict with [str] keys kept in insertion order. *)
Fixpoint dict_getitem {V : Type} (d : list (string * V)) (key : string) : res V :=
  match d with
  | [] => Raise (KeyError key)
  | (k, v) :: rest => if bool_decide (k = key) then Ok v else dict_getitem rest key
  end.

(** The body of the loop of [main], lines 143-158. *)
Definition build_schema (b : builder) (item : string * model) : M unit :=
  print ("Building schema for " +:+ item.1);;
  filename ← lift (dict_getitem schema_filenames item.1);
  file ← open_w (path_join (out_dir b) (filename +:+ ".json"));
  text ← lift (schema_json b item.2 2 true);
  file_write file text;;
  file_write file newline.

(** [main], lines 114-158. *)
Definition main (b : builder) : M unit := for_each (build_schema b) schemas.

(** ** The Galaxy platform dump *)

(** Python's [==] on two values, as the [in] operator applies it to the
    elements of a list, and the text [f"{platforms}"] of the dict of
    platforms: both belong to the interpreter. *)
Class PyValues : Type := {
  py_eq : json -> json -> bool;
  py_repr : list (string * list json) -> string
}.

(** The Galaxy server, [requests.get(url).json()], which answers a URL
    the same way each time, and the directory of the package. *)
Record galaxy_host : Type := {
  http_get_json : string -> res json;
  module_dir : string
}.

Definition GALAXY_API_URL : string := "https://galaxy.ansible.com".

Definition GENERATED_HEADER : string := "# pylint: disable-all" +:+ newline.

(** The truth value of a value: [None], [False], zero, and the empty
    string, list and dict are false. *)
Definition truthy (v : json) : bool :=
  match v with
  | JNull => false
  | JBool b => b
  | JInt n => negb (bool_decide (n = 0%Z))
  | JFloat (FFinite m _) => negb (bool_decide (m = 0%Z))
  | JFloat _ => true
  | JStr s => negb (bool_decide (s = EmptyString))
  | JArr items => negb (bool_decide (items = []))
  | JObj fields => negb (bool_decide (size fields = 0))
  end.

(** [isinstance(v, str)]. *)
Definition isinstance_str (v : json) : bool :=
  match v with
  | JStr _ => true
  | _ => false
  end.

(** [obj.get(key, None)]: only a dict has [get]. *)
Definition py_get (obj : json) (key : string) : res json :=
  match obj with
  | JObj fields => Ok (default JNull (fields !! key))
  | _ => Raise AttributeError
  end.

Fixpoint characters (s : string) : list json :=
  match s with
  | EmptyString => []
  | String c s' => JStr (String c EmptyString) :: characters s'
  end.

(** What [for entry in v] goes through: the items of a list, the keys
    of a dict, the characters of a str; nothing else is iterable. *)
Definition py_iter (v : json) : res (list json) :=
  match v with
  | JArr items => Ok items
  | JObj fields => Ok (JStr <$> (map_to_list fields).*1)
  | JStr s => Ok (characters s)
  | _ => Raise TypeError
  end.

(** [x in items] on a list. *)
Definition py_in `{PyValues} (x : json) (items : list json) : bool :=
  existsb (fun item => py_eq item x) items.

(** [key in d], [d[key] = v] and [d[key].append(x)] on a dict with
    [str] keys kept in insertion order: a new key goes last, an
    existing one keeps its place. *)
Definition dict_has {V : Type} (d : list (string * V)) (key : string) : bool :=
  existsb (fun kv => bool_decide (kv.1 = key)) d.

Fixpoint dict_setitem {V : Type} (d : list (string * V)) (key : string) (v : V)
    : list (string * V) :=
  match d with
  | [] => [(key, v)]
  | (k, v') :: rest =>
      if bool_decide (k = key) then (k, v) :: rest else (k, v') :: dict_setitem rest key v
  end.

Fixpoint dict_append {V : Type} (d : list (string * list V)) (key : string) (x : V)
    : res (list (string * list V)) :=
  match d with
  | [] => Raise (KeyError key)
  | (k, items) :: rest =>
      if bool_decide (k = key) then Ok ((k, (items ++ [x])%list) :: rest)
      else res_bind (dict_append rest key x) (fun rest' => Ok ((k, items) :: rest'))
  end.

(** The body of the inner loop, lines 42-51, on one [entry]. *)
Definition add_platform `{PyValues} (platforms : list (string * list json)) (entry : json)
    : res (list (string * list json)) :=
  match entry with
  | JObj _ =>
      res_bind (py_get entry "name") (fun name =>
      res_bind (py_get entry "release") (fun release =>
      if negb (truthy name) || negb (isinstance_str name) then Ok platforms
      else
        match name with
        | JStr name_text =>
            let platforms :=
              if truthy name && negb (dict_has platforms name_text)
              then dict_setitem platforms name_text []
              else platforms in
            if negb (py_in release [JStr "any"; JStr "None"]) then
              res_bind (dict_getitem platforms name_text) (fun releases =>
              if negb (py_in release releases)
              then dict_append platforms name_text release
              else Ok platforms)
            else Ok platforms
        | _ => Ok platforms
        end))
  | _ => Ok platforms
  end.

(** [for entry in entries: ...], lines 41-51. *)
Fixpoint add_platforms `{PyValues} (platforms : list (string * list json))
    (entries : list json) : res (list (string * list json)) :=
  match entries with
  | [] => Ok platforms
  | entry :: rest =>
      res_bind (add_platform platforms entry) (fun platforms' =>
      add_platforms platforms' rest)
  end.

(** The [while] loop, lines 38-51.  The loop ends when the server stops
    sending a link, which it need not do: [fuel] bounds the number of
    times the condition is evaluated, and [None] means the bound was
    reached with the loop still running. *)
Fixpoint fetch_platforms `{PyValues} (h : galaxy_host) (fuel : nat) (result : json)
    (platforms : list (string * list json)) : option (res (list (string * list json))) :=
  match fuel with
  | 0 => None
  | S fuel' =>
      match py_get result "next_link" with
      | Raise e => Some (Raise e)
      | Ok link =>
          if truthy link then
            match getitem result "next_link" with
            | Ok (JStr next_link) =>
                match http_get_json h (GALAXY_API_URL +:+ next_link) with
                | Ok result' =>
                    match res_bind (getitem result' "results") py_iter with
                    | Ok entries =>
                        match add_platforms platforms entries with
                        | Ok platforms' => fetch_platforms h fuel' result' platforms'
                        | Raise e => Some (Raise e)
                        end
                    | Raise e => Some (Raise e)
                    end
                | Raise e => Some (Raise e)
                end
            | Ok _ => Some (Raise TypeError)
            | Raise e => Some (Raise e)
            end
          else Some (Ok platforms)
      end
  end.

Definition first_page : json := JObj (<["next_link" := JStr "/api/v1/platforms/"]> ∅).

Definition galaxy_filename (h : galaxy_host) : string := module_dir h +:+ "/_galaxy.py".

(** [dump_galaxy_platforms], lines 32-54; [None] when [fuel] does not
    suffice for the loop. *)
Definition dump_galaxy_platforms `{PyValues} (h : galaxy_host) (fuel : nat)
    : state -> option (res unit * state) :=
  fun st =>
    let st1 := (print ("Dumping list of Galaxy platforms to " +:+ galaxy_filename h) st).2 in
    match fetch_platforms h fuel first_page [] with
    | None => None
    | Some (Raise e) => Some (Raise e, st1)
    | Some (Ok platforms) =>
        Some ((file ← open_w (galaxy_filename h);
               file_write file
                 (GENERATED_HEADER +:+ newline +:+ "GALAXY_PLATFORMS = "
                  +:+ py_repr platforms +:+ newline)) st1)
    end.

(** ** A host to run the model on

    The examples below need one concrete [JsonLib] and one concrete
    [world].  [demo_loads] knows the texts the demo tool prints and
    rejects the text [not json]; [demo_dumps] prints a document as
    [json.dumps(obj, indent=2, sort_keys=True)] does when the document
    has no float and its strings need no escape.  Neither is used to
    state a theorem about the code. *)

Definition dq : string := String (Ascii.ascii_of_nat 34) EmptyString.

Definition quoted (s : string) : string := dq +:+ s +:+ dq.

Fixpoint spaces (n : nat) : string :=
  match n with
  | 0 => EmptyString
  | S n' => String " " (spaces n')
  end.

Fixpoint join (sep : string) (parts : list string) : string :=
  match parts with
  | [] => EmptyString
  | [part] => part
  | part :: rest => part +:+ sep +:+ join sep rest
  end.

Fixpoint insert_sorted (member : string * string) (members : list (string * string))
    : list (string * string) :=
  match members with
  | [] => [member]
  | member' :: rest =>
      if String.leb member.1 member'.1 then member :: members
      else member' :: insert_sorted member rest
  end.

Definition block (opening closing : string) (indent depth : nat) (parts : list string)
    : string :=
  match parts with
  | [] => opening +:+ closing
  | _ =>
      opening +:+ newline +:+ spaces (indent * S depth)
      +:+ join ("," +:+ newline +:+ spaces (indent * S depth)) parts
      +:+ newline +:+ spaces (indent * depth) +:+ closing
  end.

Fixpoint render (indent depth : nat) (v : json) : string :=
  match v with
  | JNull => "null"
  | JBool b => if b then "true" else "false"
  | JInt n => pretty n
  | JFloat (FFinite m _) => pretty m +:+ ".0"
  | JFloat (FInfinity negative) => if negative then "-Infinity" else "Infinity"
  | JFloat FNaN => "NaN"
  | JStr s => quoted s
  | JArr items => block "[" "]" indent depth (map (render indent (S depth)) items)
  | JObj fields =>
      block "{" "}" indent depth
        (map (fun member => quoted member.1 +:+ ": " +:+ member.2)
           (map_fold (fun key v members => insert_sorted (key, render indent (S depth) v) members)
              [] fields))
  end.

Definition demo_dumps (obj : json) (indent : nat) (sort_keys : bool) : string :=
  render indent 0 obj.

(** The document of the module [ping], as the tool prints it and as
    [json.loads] reads it. *)
Definition ping_doc : gmap string json :=
  <["filename" := JStr "/usr/lib/python3/ansible/modules/ping.py"]>
  (<["author" := JArr [JStr "Ansible Core Team"]]>
  (<["module" := JStr "ping"]>
  (<["short_description" := JStr "Try to connect to host"]> ∅))).

Definition ping_entry : gmap string json :=
  <["doc" := JObj ping_doc]> (<["examples" := JStr "- ping:"]> ∅).

Definition ping_data : gmap string json := <["ping" := JObj ping_entry]> ∅.

Definition ping_stdout : string :=
  "{" +:+ quoted "ping" +:+ ": {" +:+ quoted "doc" +:+ ": {"
  +:+ quoted "author" +:+ ": [" +:+ quoted "Ansible Core Team" +:+ "], "
  +:+ quoted "filename" +:+ ": " +:+ quoted "/usr/lib/python3/ansible/modules/ping.py" +:+ ", "
  +:+ quoted "module" +:+ ": " +:+ quoted "ping" +:+ ", "
  +:+ quoted "short_description" +:+ ": " +:+ quoted "Try to connect to host" +:+ "}, "
  +:+ quoted "examples" +:+ ": " +:+ quoted "- ping:" +:+ "}}".

Definition demo_loads (s : string) : option json :=
  if bool_decide (s = ping_stdout) then Some (JObj ping_data)
  else if bool_decide (s = "{}") then Some (JObj ∅)
  else if bool_decide (s = "[]") then Some (JArr [])
  else None.

Definition demo_json : JsonLib :=
  {| json_loads := demo_loads; json_dumps := demo_dumps |}.

(** [ansible-doc -j ping] prints the document of [ping]; for [copy] it
    fails with status 1; for [broken] it prints text that is not JSON,
    for [empty] an empty object and for [list] an empty list, with
    status 0 each time; no other command can be started. *)
Definition demo_spawn (cmd : list string) : completed :=
  if bool_decide (cmd = ["ansible-doc"; "-j"; "ping"]) then Exited 0 ping_stdout
  else if bool_decide (cmd = ["ansible-doc"; "-j"; "copy"]) then Exited 1 EmptyString
  else if bool_decide (cmd = ["ansible-doc"; "-j"; "broken"]) then Exited 0 "not json"
  else if bool_decide (cmd = ["ansible-doc"; "-j"; "empty"]) then Exited 0 "{}"
  else if bool_decide (cmd = ["ansible-doc"; "-j"; "list"]) then Exited 0 "[]"
  else SpawnFailed.

Definition demo_world (modules : list string) : world :=
  {| spawn := demo_spawn; ansible_modules := modules; finished_early := fun _ => true |}.

(** A directory left by an earlier run: artifacts of [ping], of [copy]
    and of the module [setup], which is not in the catalogue any more,
    and a file the pattern does not match. *)
Definition demo_state : state :=
  {| fs := <["data/modules/ping.json" := "stale"]>
           (<["data/modules/copy.json" := "stale too"]>
           (<["data/modules/setup.json" := "old"]>
           (<["data/modules/README" := "keep"]> ∅)));
     printed := []; opened := []; bar_total := 0; bar_completed := 0 |}.

(** A builder in [/srv/schemas] whose models print a one-line schema,
    and one whose task model meets a type [map_type] does not know. *)
Definition model_name (m : model) : string :=
  match m with
  | AnsibleLintModel => "AnsibleLintModel"
  | GalaxyFileModel => "GalaxyFileModel"
  | MetaModel => "MetaModel"
  | MoleculeScenarioModel => "MoleculeScenarioModel"
  | PlaybookFileModel => "PlaybookFileModel"
  | RequirementsFileModel => "RequirementsFileModel"
  | TasksListModel => "TasksListModel"
  | VarsModel => "VarsModel"
  | ZuulConfigModel => "ZuulConfigModel"
  end.

Definition demo_schema (m : model) : string :=
  "{" +:+ quoted "title" +:+ ": " +:+ quoted (model_name m) +:+ "}".

Definition demo_builder : builder :=
  {| getcwd := "/srv/schemas"; schema_json := fun m _ _ => Ok (demo_schema m) |}.

Definition failing_builder : builder :=
  {| getcwd := "/srv/schemas";
     schema_json := fun m _ _ =>
       match m with
       | TasksListModel => res_bind (map_type "binary") (fun _ => Ok (demo_schema m))
       | _ => Ok (demo_schema m)
       end |}.

(** Python's equality on the values of a document: numbers compare by
    value across [bool], [int] and [float], a list or dict compares
    element by element, and values of different kinds differ.  The
    [json] module returns one and the same object for every [NaN], and
    [in] looks at identity first. *)
Definition number_of (v : json) : option (Z * Z) :=
  match v with
  | JBool b => Some (if b then 1%Z else 0%Z, 0%Z)
  | JInt n => Some (n, 0%Z)
  | JFloat (FFinite m e) => Some (m, e)
  | _ => None
  end.

Definition same_number (a b : Z * Z) : bool :=
  let low := Z.min a.2 b.2 in
  bool_decide ((a.1 * 2 ^ (a.2 - low))%Z = (b.1 * 2 ^ (b.2 - low))%Z).

Fixpoint demo_py_eq (a b : json) : bool :=
  match a, b with
  | JNull, JNull => true
  | JStr s, JStr s' => bool_decide (s = s')
  | JFloat (FInfinity sign), JFloat (FInfinity sign') => bool_decide (sign = sign')
  | JFloat FNaN, JFloat FNaN => true
  | JArr items, JArr items' =>
      (fix all2 (l l' : list json) : bool :=
         match l, l' with
         | [], [] => true
         | x :: rest, x' :: rest' => demo_py_eq x x' && all2 rest rest'
         | _, _ => false
         end) items items'
  | JObj fields, JObj fields' =>
      bool_decide (size fields = size fields')
      && map_fold (fun key v acc =>
                     acc && match fields' !! key with
                            | Some v' => demo_py_eq v v'
                            | None => false
                            end) true fields
  | _, _ =>
      match number_of a, number_of b with
      | Some x, Some y => same_number x y
      | _, _ => false
      end
  end.

Definition demo_value_repr (v : json) : string :=
  match v with
  | JNull => "None"
  | JBool b => if b then "True" else "False"
  | JStr s => "'" +:+ s +:+ "'"
  | _ => render 0 0 v
  end.

Definition demo_repr (platforms : list (string * list json)) : string :=
  "{" +:+ join ", " (map (fun kv => "'" +:+ kv.1 +:+ "': ["
                                   +:+ join ", " (map demo_value_repr kv.2) +:+ "]")
                        platforms) +:+ "}".

Definition demo_py : PyValues := {| py_eq := demo_py_eq; py_repr := demo_repr |}.

(** A Galaxy server with two pages.  The first lists Fedora 38, Fedora
    with the release [any], a platform without a release and an entry
    that is not a dict; the second lists Fedora 38 again and Fedora
    39, and has no further link. *)
Definition platform (name : string) (release : json) : json :=
  JObj (<["name" := JStr name]> (<["release" := release]> ∅)).

Definition galaxy_page_1 : json :=
  JObj (<["next_link" := JStr "/api/v1/platforms/?page=2"]>
       (<["results" := JArr [platform "Fedora" (JStr "38"); platform "Fedora" (JStr "any");
                             JObj (<["name" := JStr "EL"]> ∅); JStr "junk"]]> ∅)).

Definition galaxy_page_2 : json :=
  JObj (<["next_link" := JNull]>
       (<["results" := JArr [platform "Fedora" (JStr "38"); platform "Fedora" (JStr "39")]]> ∅)).

Definition demo_galaxy : galaxy_host :=
  {| http_get_json := fun url =>
       if bool_decide (url = "https://galaxy.ansible.com/api/v1/platforms/") then Ok galaxy_page_1
       else if bool_decide (url = "https://galaxy.ansible.com/api/v1/platforms/?page=2")
            then Ok galaxy_page_2
       else Raise RequestException;
     module_dir := "/srv/schemas/src/ansibleschemas" |}.

(** A server with one page. *)
Definition small_galaxy : galaxy_host :=
  {| http_get_json := fun _ => Ok galaxy_page_2;
     module_dir := "/srv/schemas/src/ansibleschemas" |}.

(** A server that cannot be reached. *)
Definition offline_galaxy : galaxy_host :=
  {| http_get_json := fun _ => Raise RequestException;
     module_dir := "/srv/schemas/src/ansibleschemas" |}.

(** A directory that holds the artifact of [ping] and that of a module
    named [.ping]. *)
Definition hidden_state : state :=
  {| fs := <["data/modules/ping.json" := "stale"]>
           (<["data/modules/.ping.json" := "hidden"]> ∅);
     printed := []; opened := []; bar_total := 0; bar_completed := 0 |}.

(** A host on which every command fails with status 2. *)
Definition failing_world : world :=
  {| spawn := fun _ => Exited 2 EmptyString; ansible_modules := [];
     finished_early := fun _ => false |}.

(** ** States after an extraction

    The three ways a call of [dump_module_doc] can leave the host. *)

Definition logged (line : string) (st : state) : state :=
  {| fs := fs st; printed := printed st ++ [line]; opened := opened st;
     bar_total := bar_total st; bar_completed := bar_completed st |}.

Definition written (path content : string) (st : state) : state :=
  {| fs := <[path := content]> (fs st); printed := printed st;
     opened := opened st ++ [path];
     bar_total := bar_total st; bar_completed := bar_completed st |}.

Inductive outcome : Type :=
| Skipped
| Crashed (e : exn)
| Written (content : string).

Definition after (module : string) (o : outcome) (st : state) : res string * state :=
  match o with
  | Skipped => (Ok module, logged (skip_notice module) st)
  | Crashed e => (Raise e, st)
  | Written content => (Ok module, written (module_path module) content st)
  end.

(** What the tool must have done for a call to end in each way: a
    call skips after a tool that failed, and writes after a tool that
    exited with status zero. *)
Definition caused_by (run : completed) (o : outcome) : Prop :=
  match o with
  | Skipped => exists returncode out, run = Exited returncode out /\ returncode <> 0%Z
  | Crashed _ => True
  | Written _ => exists out, run = Exited 0 out
  end.

(** The five fields the extractor removes, and a [doc] section without
    them. *)
Definition volatile_fields : list string :=
  ["filename"; "author"; "notes"; "examples"; "return"].

Definition strip (doc : gmap string json) : gmap string json :=
  delete "return" (delete "examples" (delete "notes" (delete "author" (delete "filename" doc)))).

(** The document around a [doc] section: [data[module]["doc"]] is the
    dict [doc]. *)
Definition located (data : json) (module : string) (entry doc : gmap string json) : Prop :=
  exists fields, data = JObj fields /\ fields !! module = Some (JObj entry)
                 /\ entry !! "doc" = Some (JObj doc).

Definition sanitized (data : json) (module : string) (entry doc : gmap string json) : json :=
  setitem data module (JObj (<["doc" := JObj (strip doc)]> entry)).

(** The ways the output of a tool that exited with status zero can be
    unusable, each with the exception Python raises for it: the text is
    not JSON; the document is a dict without the module's key; the
    module's entry is a dict without the key [doc]. *)
Definition malformed `{JsonLib} (out module : string) (e : exn) : Prop :=
  (json_loads out = None /\ e = JSONDecodeError)
  \/ (exists fields,
        json_loads out = Some (JObj fields) /\ fields !! module = None
        /\ e = KeyError module)
  \/ (exists fields entry,
        json_loads out = Some (JObj fields) /\ fields !! module = Some (JObj entry)
        /\ entry !! "doc" = None /\ e = KeyError "doc").

(** A module whose extraction returns: the tool failed, or it printed
    a document with a [doc] dict for the module. *)
Definition extracts `{JsonLib} (w : world) (module : string) : Prop :=
  (exists returncode out,
      spawn w ["ansible-doc"; "-j"; module] = Exited returncode out /\ returncode <> 0%Z)
  \/ (exists out data entry doc,
        spawn w ["ansible-doc"; "-j"; module] = Exited 0 out
        /\ json_loads out = Some data /\ located data module entry doc).

(** A host with nothing on it, and what a call for [module] writes to
    the module's artifact there: the text, or [None] when the call
    writes nothing. *)
Definition blank : state :=
  {| fs := ∅; printed := []; opened := []; bar_total := 0; bar_completed := 0 |}.

Definition artifact `{JsonLib} (w : world) (module : string) : option string :=
  fs (dump_module_doc w module blank).2 !! module_path module.

Definition store `{JsonLib} (w : world) (files : gmap string string) (module : string)
    : gmap string string :=
  match artifact w module with
  | Some content => <[module_path module := content]> files
  | None => files
  end.

(** The ways a document that did parse can have the wrong shape for
    [data[module]["doc"].pop(key, None)], each with the exception
    Python raises for it. *)
Definition is_dict (v : json) : bool :=
  match v with
  | JObj _ => true
  | _ => false
  end.

Definition is_list (v : json) : bool :=
  match v with
  | JArr _ => true
  | _ => false
  end.

Inductive wrong_shape (module : string) : json -> exn -> Prop :=
| document_not_a_dict data :
    is_dict data = false -> wrong_shape module data TypeError
| entry_not_a_dict fields entry :
    fields !! module = Some entry -> is_dict entry = false ->
    wrong_shape module (JObj fields) TypeError
| doc_is_a_list fields entry doc :
    fields !! module = Some (JObj entry) -> entry !! "doc" = Some doc ->
    is_list doc = true ->
    wrong_shape module (JObj fields) TypeError
| doc_has_no_pop fields entry doc :
    fields !! module = Some (JObj entry) -> entry !! "doc" = Some doc ->
    is_dict doc = false -> is_list doc = false ->
    wrong_shape module (JObj fields) AttributeError.

(** The six type names of JSON Schema that [map_type] can return. *)
Definition canonical_tags : list string :=
  ["string"; "array"; "boolean"; "integer"; "object"; "number"].

(** The output file of a schema, [out_dir / f"{filename}.json"], and the
    line [main] prints for it. *)
Definition schema_file (b : builder) (filename : string) : string :=
  path_join (out_dir b) (filename +:+ ".json").

(** The file [main] opens for an item of [schemas]. *)
Definition item_file (b : builder) (item : string * model) : string :=
  match dict_getitem schema_filenames item.1 with
  | Ok filename => schema_file b filename
  | Raise _ => EmptyString
  end.

Definition building (schema : string) : string := "Building schema for " +:+ schema.

(** A list of releases none of which equals a later one, and a dict of
    platforms as the dump keeps it: every name once and not empty,
    every list of releases free of [any], of [None] (the strings) and
    of repetitions. *)
Fixpoint distinct `{PyValues} (releases : list json) : Prop :=
  match releases with
  | [] => True
  | release :: later =>
      Forall (fun other => py_eq release other = false) later /\ distinct later
  end.

Definition tidy_entry `{PyValues} (kv : string * list json) : Prop :=
  kv.1 <> EmptyString /\ (JStr "any" ∉ kv.2) /\ (JStr "None" ∉ kv.2) /\ distinct kv.2.

Definition tidy `{PyValues} (platforms : list (string * list json)) : Prop :=
  NoDup platforms.*1 /\ Forall tidy_entry platforms.

(** An entry the loop passes over: not a dict, or a dict whose [name]
    is missing, not a [str], or empty. *)
Definition ignored (entry : json) : Prop :=
  match entry with
  | JObj fields =>
      match fields !! "name" with
      | Some (JStr name) => name = EmptyString
      | _ => True
      end
  | _ => True
  end.

(** The dict after line 48, which makes room for [name]. *)
Definition with_room (platforms : list (string * list json)) (name : string)
    : list (string * list json) :=
  if dict_has platforms name then platforms else (platforms ++ [(name, [])])%list.

(** * Properties *)

Section extractor.
Context `{J : JsonLib}.
Implicit Types (w : world) (st : state) (module : string).

Lemma state_eq st st' :
  fs st = fs st' -> printed st = printed st' -> opened st = opened st' ->
  bar_total st = bar_total st' -> bar_completed st = bar_completed st' -> st = st'.
Proof. destruct st, st'; simpl; intros; congruence. Qed.

Lemma pop_doc_field_located fields module entry doc key :
  fields !! module = Some (JObj entry) -> entry !! "doc" = Some (JObj doc) ->
  pop_doc_field (JObj fields) module key
  = Ok (JObj (<[module := JObj (<["doc" := JObj (delete key doc)]> entry)]> fields)).
Proof. intros Hm Hd. unfold pop_doc_field; simpl. rewrite Hm; simpl. by rewrite Hd. Qed.

Lemma dump_skipped w module st returncode out :
  spawn w ["ansible-doc"; "-j"; module] = Exited returncode out ->
  returncode <> 0%Z ->
  dump_module_doc w module st = after module Skipped st.
Proof.
  intros Hrun Hcode.
  unfold dump_module_doc, try_except_called_process_error, check_output, mbind, M_bind.
  rewrite Hrun, bool_decide_false by done. reflexivity.
Qed.

Lemma dump_written w module st out data entry doc :
  spawn w ["ansible-doc"; "-j"; module] = Exited 0 out ->
  json_loads out = Some data ->
  located data module entry doc ->
  dump_module_doc w module st
  = after module (Written (json_dumps (sanitized data module entry doc) 2 true +:+ newline)) st.
Proof.
  intros Hrun Hload (fields & -> & Hm & Hd).
  unfold dump_module_doc, try_except_called_process_error, check_output, mbind, M_bind, lift.
  rewrite Hrun, bool_decide_true by done. simpl. rewrite Hload.
  rewrite (pop_doc_field_located _ _ _ _ _ Hm Hd).
  do 4 (erewrite pop_doc_field_located; [ | apply lookup_insert_eq | apply lookup_insert_eq]).
  rewrite !insert_insert_eq.
  unfold open_w, file_write, with_fs, after, written, sanitized, strip; simpl.
  f_equal. apply state_eq; simpl; try reflexivity.
  rewrite !lookup_insert_eq; simpl.
  by rewrite !insert_insert_eq.
Qed.

Lemma pop_doc_field_raise data module key e :
  pop_doc_field data module key = Raise e ->
  e = KeyError module \/ e = KeyError "doc" \/ e = TypeError \/ e = AttributeError.
Proof.
  unfold pop_doc_field, getitem, pop_default, res_bind.
  repeat case_match; naive_solver.
Qed.

Ltac run_extractor Hrun :=
  unfold dump_module_doc, try_except_called_process_error, check_output, mbind, M_bind, lift;
  rewrite Hrun; simpl.

(** What a call does depends on the outcome of the tool alone, not on
    the state it starts from; it skips only after a failed tool and
    writes only after a tool that exited with status zero. *)
Lemma dump_outcome_caused w module :
  exists o,
    caused_by (spawn w ["ansible-doc"; "-j"; module]) o
    /\ forall w' st,
         spawn w' ["ansible-doc"; "-j"; module] = spawn w ["ansible-doc"; "-j"; module] ->
         dump_module_doc w' module st = after module o st.
Proof.
  destruct (spawn w ["ansible-doc"; "-j"; module]) as [ | returncode out] eqn:Hrun.
  { exists (Crashed OSError). split; [done | ]. intros w' st Hsame. by run_extractor Hsame. }
  destruct (decide (returncode = 0%Z)) as [-> | Hcode].
  2: { exists Skipped. split; [by exists returncode, out | ]. intros w' st Hsame. by eapply dump_skipped. }
  destruct (json_loads out) as [data | ] eqn:Hload.
  2: { exists (Crashed JSONDecodeError). split; [done | ]. intros w' st Hsame. run_extractor Hsame. by rewrite Hload. }
  destruct (pop_doc_field data module "filename") as [d1 | e1] eqn:E1.
  2: { pose proof (pop_doc_field_raise _ _ _ _ E1) as H.
       exists (Crashed e1). split; [done | ]. intros w' st Hsame. run_extractor Hsame. rewrite Hload, E1.
       by destruct H as [-> | [-> | [-> | ->]]]. }
  destruct (pop_doc_field d1 module "author") as [d2 | e2] eqn:E2.
  2: { pose proof (pop_doc_field_raise _ _ _ _ E2) as H.
       exists (Crashed e2). split; [done | ]. intros w' st Hsame. run_extractor Hsame. rewrite Hload, E1, E2.
       by destruct H as [-> | [-> | [-> | ->]]]. }
  destruct (pop_doc_field d2 module "notes") as [d3 | e3] eqn:E3.
  2: { pose proof (pop_doc_field_raise _ _ _ _ E3) as H.
       exists (Crashed e3). split; [done | ]. intros w' st Hsame. run_extractor Hsame. rewrite Hload, E1, E2, E3.
       by destruct H as [-> | [-> | [-> | ->]]]. }
  destruct (pop_doc_field d3 module "examples") as [d4 | e4] eqn:E4.
  2: { pose proof (pop_doc_field_raise _ _ _ _ E4) as H.
       exists (Crashed e4). split; [done | ]. intros w' st Hsame. run_extractor Hsame.
       rewrite Hload, E1, E2, E3, E4.
       by destruct H as [-> | [-> | [-> | ->]]]. }
  destruct (pop_doc_field d4 module "return") as [d5 | e5] eqn:E5.
  2: { pose proof (pop_doc_field_raise _ _ _ _ E5) as H.
       exists (Crashed e5). split; [done | ]. intros w' st Hsame. run_extractor Hsame.
       rewrite Hload, E1, E2, E3, E4, E5.
       by destruct H as [-> | [-> | [-> | ->]]]. }
  exists (Written (json_dumps d5 2 true +:+ newline)). split; [by exists out | ].
  intros w' st Hsame. run_extractor Hsame. rewrite Hload, E1, E2, E3, E4, E5.
  unfold open_w, file_write, with_fs, after, written; simpl.
  f_equal. apply state_eq; simpl; try reflexivity.
  rewrite !lookup_insert_eq; simpl.
  by rewrite !insert_insert_eq.
Qed.

Lemma dump_outcome w module :
  exists o, forall w' st,
    spawn w' ["ansible-doc"; "-j"; module] = spawn w ["ansible-doc"; "-j"; module] ->
    dump_module_doc w' module st = after module o st.
Proof. destruct (dump_outcome_caused w module) as (o & _ & Ho). by exists o. Qed.

(** ** The type mapper *)

(** C1.  Each of the twelve source tags is mapped to the canonical tag
    of the table: [str], [filename], [path], [raw] and [sid] to
    [string]; [list] to [array]; [bool] to [boolean]; [int] to
    [integer]; [dict], [jsonarg] and [json] to [object]; [float] to
    [number]. *)
Theorem map_type_table :
  map_type "str" = Ok "string" /\ map_type "filename" = Ok "string"
  /\ map_type "path" = Ok "string" /\ map_type "raw" = Ok "string"
  /\ map_type "sid" = Ok "string" /\ map_type "list" = Ok "array"
  /\ map_type "bool" = Ok "boolean" /\ map_type "int" = Ok "integer"
  /\ map_type "dict" = Ok "object" /\ map_type "jsonarg" = Ok "object"
  /\ map_type "json" = Ok "object" /\ map_type "float" = Ok "number".
Proof. repeat split; reflexivity. Qed.

(** C2.  On a string outside the twelve tags [map_type] raises
    [NotImplementedError]; the message quotes the offending tag, and no
    canonical tag is returned. *)
Theorem map_type_unsupported (ansible_type : string) :
  ansible_type ∉ source_tags ->
  map_type ansible_type
  = Raise (NotImplementedError
             ("Unable to map ansible type " +:+ ansible_type +:+ " to JSON Schema type."))
  /\ forall canonical, map_type ansible_type <> Ok canonical.
Proof.
  intros Hout.
  assert (map_type ansible_type
          = Raise (NotImplementedError
                     ("Unable to map ansible type " +:+ ansible_type
                      +:+ " to JSON Schema type."))) as ->.
  { unfold source_tags in Hout. rewrite !not_elem_of_cons in Hout.
    destruct Hout as (? & ? & ? & ? & ? & ? & ? & ? & ? & ? & ? & ? & _).
    unfold map_type.
    rewrite !bool_decide_false; rewrite ?not_elem_of_cons;
      try done; split_and?; try done; apply not_elem_of_nil. }
  split; [reflexivity | discriminate].
Qed.

Lemma map_type_unsupported_witness :
  ("binary" ∉ source_tags)
  /\ map_type "binary"
     = Raise (NotImplementedError "Unable to map ansible type binary to JSON Schema type.").
Proof.
  assert ("binary" ∉ source_tags) as Hout.
  { apply (bool_decide_unpack _). vm_compute. exact I. }
  split; [exact Hout | exact (proj1 (map_type_unsupported "binary" Hout))].
Defined.

(** ** The extractor *)

(** C3, as the code has it.  When [ansible-doc -j module] ends with a
    status other than zero, [dump_module_doc] prints the notice that
    names the module, opens no file, leaves the file system as it was
    and returns instead of raising; what it returns is the module name,
    as after a success, with no mark of the skip.  When the tool exits
    with status zero and prints a document with a [doc] dict for the
    module, the call prints nothing and opens one file, the artifact,
    which then holds the sanitized document.  A call ends in one of
    three ways: a skip (the notice, no file, after a failed tool), an
    exception (nothing printed, no file), or one file written (no
    notice, after a tool that exited with status zero); never a notice
    together with a file. *)
Theorem dump_module_doc_tool_failure w module st :
  (forall returncode out,
      spawn w ["ansible-doc"; "-j"; module] = Exited returncode out ->
      returncode <> 0%Z ->
      (dump_module_doc w module st).1 = Ok module
      /\ printed (dump_module_doc w module st).2 = (printed st ++ [skip_notice module])%list
      /\ opened (dump_module_doc w module st).2 = opened st
      /\ fs (dump_module_doc w module st).2 = fs st)
  /\ (forall out data entry doc,
        spawn w ["ansible-doc"; "-j"; module] = Exited 0 out ->
        json_loads out = Some data ->
        located data module entry doc ->
        (dump_module_doc w module st).1 = Ok module
        /\ printed (dump_module_doc w module st).2 = printed st
        /\ opened (dump_module_doc w module st).2 = (opened st ++ [module_path module])%list
        /\ fs (dump_module_doc w module st).2
           = <[module_path module
               := json_dumps (sanitized data module entry doc) 2 true +:+ newline]> (fs st))
  /\ (((dump_module_doc w module st).1 = Ok module
       /\ printed (dump_module_doc w module st).2 = (printed st ++ [skip_notice module])%list
       /\ opened (dump_module_doc w module st).2 = opened st
       /\ fs (dump_module_doc w module st).2 = fs st
       /\ exists returncode out,
            spawn w ["ansible-doc"; "-j"; module] = Exited returncode out
            /\ returncode <> 0%Z)
      \/ ((exists e, (dump_module_doc w module st).1 = Raise e)
          /\ printed (dump_module_doc w module st).2 = printed st
          /\ opened (dump_module_doc w module st).2 = opened st
          /\ fs (dump_module_doc w module st).2 = fs st)
      \/ ((dump_module_doc w module st).1 = Ok module
          /\ printed (dump_module_doc w module st).2 = printed st
          /\ opened (dump_module_doc w module st).2 = (opened st ++ [module_path module])%list
          /\ (exists content,
                fs (dump_module_doc w module st).2 = <[module_path module := content]> (fs st))
          /\ exists out, spawn w ["ansible-doc"; "-j"; module] = Exited 0 out)).
Proof.
  split_and!.
  - intros returncode out Hrun Hcode.
    by rewrite (dump_skipped _ _ _ _ _ Hrun Hcode).
  - intros out data entry doc Hrun Hload Hloc.
    by rewrite (dump_written _ _ _ _ _ _ _ Hrun Hload Hloc).
  - destruct (dump_outcome_caused w module) as (o & Hcause & Ho).
    rewrite (Ho w st eq_refl).
    destruct o as [ | e | content]; simpl in *.
    + left. by split_and!.
    + right; left. split_and!; eauto.
    + right; right. split_and!; eauto.
Qed.

(** C5.  When the tool output parses to a document whose entry for the
    module has a [doc] dict, the text written is the serialization of a
    document that differs from the parsed one in the [doc] section
    only: the five volatile fields are absent from it, whether or not
    they were present, and every other field, inside and outside
    [doc], is as it was. *)
Theorem dump_module_doc_sanitizes w module st out fields entry doc :
  spawn w ["ansible-doc"; "-j"; module] = Exited 0 out ->
  json_loads out = Some (JObj fields) ->
  fields !! module = Some (JObj entry) ->
  entry !! "doc" = Some (JObj doc) ->
  exists fields' entry' doc',
    (dump_module_doc w module st).1 = Ok module
    /\ fs (dump_module_doc w module st).2 !! module_path module
       = Some (json_dumps (JObj fields') 2 true +:+ newline)
    /\ fields' !! module = Some (JObj entry')
    /\ (forall key, key <> module -> fields' !! key = fields !! key)
    /\ entry' !! "doc" = Some (JObj doc')
    /\ (forall key, key <> "doc" -> entry' !! key = entry !! key)
    /\ (forall key, key ∈ volatile_fields -> doc' !! key = None)
    /\ (forall key, key ∉ volatile_fields -> doc' !! key = doc !! key).
Proof.
  intros Hrun Hload Hm Hd.
  exists (<[module := JObj (<["doc" := JObj (strip doc)]> entry)]> fields),
         (<["doc" := JObj (strip doc)]> entry), (strip doc).
  assert (located (JObj fields) module entry doc) as Hloc by (exists fields; done).
  rewrite (dump_written _ _ st _ _ _ _ Hrun Hload Hloc); simpl.
  split_and!.
  - done.
  - by rewrite lookup_insert_eq.
  - by rewrite lookup_insert_eq.
  - intros key Hkey. by rewrite lookup_insert_ne.
  - by rewrite lookup_insert_eq.
  - intros key Hkey. by rewrite lookup_insert_ne.
  - intros key Hkey. unfold strip, volatile_fields in *.
    repeat (apply elem_of_cons in Hkey as [-> | Hkey]; [by simplify_map_eq | ]).
    by apply elem_of_nil in Hkey.
  - intros key Hkey. unfold strip, volatile_fields in *.
    rewrite !lookup_delete_ne; [done | | | | | ]; intros <-; apply Hkey; set_solver.
Qed.

Lemma dump_malformed w module st out e :
  spawn w ["ansible-doc"; "-j"; module] = Exited 0 out ->
  malformed out module e ->
  dump_module_doc w module st = (Raise e, st).
Proof.
  intros Hrun Hbad. run_extractor Hrun.
  destruct Hbad as [[Hload ->] | [(fields & Hload & Hm & ->) | (fields & entry & Hload & Hm & Hd & ->)]];
    rewrite Hload; [reflexivity | | ]; unfold pop_doc_field; simpl; rewrite Hm; simpl;
    [reflexivity | by rewrite Hd].
Qed.

(** C4, as the code has it.  When the tool exits with status zero and
    its output is not JSON, or lacks the module's key or the key [doc],
    the call is not turned into a skip: [JSONDecodeError], or the
    [KeyError] of the missing key, is raised out of [dump_module_doc],
    which catches [CalledProcessError] only.  Nothing is printed and no
    file is written. *)
Theorem dump_module_doc_malformed_output w module st out e :
  spawn w ["ansible-doc"; "-j"; module] = Exited 0 out ->
  malformed out module e ->
  dump_module_doc w module st = (Raise e, st).
Proof. apply dump_malformed. Qed.

(** C6.  When the tool output parses to a document whose entry for the
    module has a [doc] dict, the call opens one file,
    [data/modules/<module>.json]; afterwards that file holds the
    sanitized document as [json.dumps(..., indent=2, sort_keys=True)]
    prints it, followed by a newline, whatever the file held before,
    and no other file has changed. *)
Theorem dump_module_doc_artifact w module st out data entry doc :
  spawn w ["ansible-doc"; "-j"; module] = Exited 0 out ->
  json_loads out = Some data ->
  located data module entry doc ->
  (dump_module_doc w module st).1 = Ok module
  /\ opened (dump_module_doc w module st).2
     = (opened st ++ ["data/modules/" +:+ module +:+ ".json"])%list
  /\ fs (dump_module_doc w module st).2 !! ("data/modules/" +:+ module +:+ ".json")
     = Some (json_dumps (sanitized data module entry doc) 2 true +:+ newline)
  /\ (forall path, path <> "data/modules/" +:+ module +:+ ".json" ->
        fs (dump_module_doc w module st).2 !! path = fs st !! path)
  /\ printed (dump_module_doc w module st).2 = printed st.
Proof.
  intros Hrun Hload Hloc.
  rewrite (dump_written _ _ st _ _ _ _ Hrun Hload Hloc); simpl.
  fold (module_path module). split_and!; try done.
  - by rewrite lookup_insert_eq.
  - intros path Hpath. by rewrite lookup_insert_ne.
Qed.

(** C7.  Two calls for the same module whose tool runs end alike (same
    exit status, same output) return alike, and either neither writes a
    file or both write the same text to the module's artifact, whatever
    the two hosts held before. *)
Theorem dump_module_doc_reproducible w1 w2 module st1 st2 :
  spawn w1 ["ansible-doc"; "-j"; module] = spawn w2 ["ansible-doc"; "-j"; module] ->
  (dump_module_doc w1 module st1).1 = (dump_module_doc w2 module st2).1
  /\ ((opened (dump_module_doc w1 module st1).2 = opened st1
       /\ fs (dump_module_doc w1 module st1).2 = fs st1
       /\ opened (dump_module_doc w2 module st2).2 = opened st2
       /\ fs (dump_module_doc w2 module st2).2 = fs st2)
      \/ exists content,
           (dump_module_doc w1 module st1).2 = written (module_path module) content st1
           /\ (dump_module_doc w2 module st2).2 = written (module_path module) content st2).
Proof.
  intros Hsame.
  destruct (dump_outcome w2 module) as [o Ho].
  rewrite (Ho w1 st1 Hsame), (Ho w2 st2 eq_refl).
  destruct o; simpl; eauto 10.
Qed.

(** C10.  A call that returns, returns the module name it was given,
    after a successful extraction and after a skip alike: the values
    two such calls for one module return are equal, so they do not tell
    a success from a skip. *)
Theorem dump_module_doc_returns_its_argument w1 w2 module st1 st2 r1 r2 :
  (dump_module_doc w1 module st1).1 = Ok r1 ->
  (dump_module_doc w2 module st2).1 = Ok r2 ->
  r1 = module /\ r2 = module /\ r1 = r2.
Proof.
  destruct (dump_outcome w1 module) as [o1 Ho1].
  destruct (dump_outcome w2 module) as [o2 Ho2].
  rewrite (Ho1 w1 st1 eq_refl), (Ho2 w2 st2 eq_refl).
  destruct o1, o2; simpl; intros; simplify_eq; done.
Qed.

(** X1.  [map_type] returns a value only for one of the twelve source
    tags, and the value is one of the six type names of JSON Schema. *)
Theorem map_type_range (ansible_type canonical : string) :
  map_type ansible_type = Ok canonical ->
  ansible_type ∈ source_tags /\ canonical ∈ canonical_tags.
Proof.
  unfold map_type, source_tags, canonical_tags.
  repeat case_bool_decide; intros [= <-]; subst; split; set_solver.
Qed.

(** X2.  A document that parses but has the wrong shape is not turned
    into a skip either: when the document or the module's entry is not
    a dict, or [doc] is a list, [TypeError] escapes; when [doc] is any
    other value that is not a dict, [AttributeError] escapes.  Nothing
    is printed and no file is written. *)
Theorem dump_module_doc_wrong_shape w module st out data e :
  spawn w ["ansible-doc"; "-j"; module] = Exited 0 out ->
  json_loads out = Some data ->
  wrong_shape module data e ->
  dump_module_doc w module st = (Raise e, st).
Proof.
  intros Hrun Hload Hshape. run_extractor Hrun. rewrite Hload.
  unfold pop_doc_field.
  destruct Hshape as [data Hd | fields entry Hm He | fields entry doc Hm Hd Hl
                      | fields entry doc Hm Hd Hnd Hnl].
  - by destruct data.
  - simpl. rewrite Hm; simpl. by destruct entry.
  - simpl. rewrite Hm; simpl. rewrite Hd; simpl. by destruct doc.
  - simpl. rewrite Hm; simpl. rewrite Hd; simpl. by destruct doc.
Qed.

(** X3.  A call never creates, changes or removes a file other than
    the artifact of its module, and never touches the progress bar. *)
Theorem dump_module_doc_touches_only_its_artifact w module st :
  (forall path, path <> module_path module ->
     fs (dump_module_doc w module st).2 !! path = fs st !! path)
  /\ bar_total (dump_module_doc w module st).2 = bar_total st
  /\ bar_completed (dump_module_doc w module st).2 = bar_completed st.
Proof.
  destruct (dump_outcome w module) as [o Ho]. rewrite (Ho w st eq_refl).
  destruct o; simpl; split_and!; try done.
  intros path Hpath. by rewrite lookup_insert_ne.
Qed.

End extractor.

(** ** The orchestrator *)

Section orchestrator.
Context `{J : JsonLib}.
Implicit Types (w : world) (st : state) (module path : string).

Lemma append_cons (c : ascii) (a b : string) : String c a +:+ b = String c (a +:+ b).
Proof. reflexivity. Qed.

Lemma length_append (a b : string) :
  String.length (a +:+ b) = String.length a + String.length b.
Proof.
  induction a as [ | c a IH]; [reflexivity | ].
  rewrite append_cons. simpl. by rewrite IH.
Qed.

Lemma append_inv_tail (a b suffix : string) : a +:+ suffix = b +:+ suffix -> a = b.
Proof.
  revert b. induction a as [ | c a IH]; intros [ | d b] Heq.
  - reflexivity.
  - exfalso. apply (f_equal String.length) in Heq.
    rewrite !length_append in Heq. simpl in Heq. lia.
  - exfalso. apply (f_equal String.length) in Heq.
    rewrite !length_append in Heq. simpl in Heq. lia.
  - rewrite !append_cons in Heq. injection Heq as -> Heq. f_equal. by apply IH.
Qed.

Lemma module_path_inj module module' : module_path module = module_path module' -> module = module'.
Proof.
  unfold module_path. intros Heq. apply String.app_inj in Heq.
  by apply append_inv_tail in Heq.
Qed.

(** *** The reset *)

Lemma lookup_foldl_delete (paths : list string) (files : gmap string string) path :
  foldl (fun acc p => delete p acc) files paths !! path
  = if decide (path ∈ paths) then None else files !! path.
Proof.
  revert files. induction paths as [ | p paths IH]; intros files; simpl.
  - reflexivity.
  - rewrite IH. destruct (decide (path = p)) as [-> | Hne].
    + rewrite lookup_delete_eq, (decide_True _ _ (list_elem_of_here _ _)). by case_decide.
    + rewrite lookup_delete_ne by done. apply decide_ext.
      rewrite elem_of_cons. tauto.
Qed.

Lemma remove_each (paths : list string) st :
  NoDup paths ->
  (forall path, path ∈ paths -> is_Some (fs st !! path)) ->
  for_each os_remove paths st
  = (Ok tt, with_fs (fun files => foldl (fun acc p => delete p acc) files paths) st).
Proof.
  revert st. induction paths as [ | p paths IH]; intros st Hnodup Hthere.
  - by destruct st.
  - apply NoDup_cons in Hnodup as [Hfresh Hnodup].
    destruct (Hthere p) as [content Hp]; [apply list_elem_of_here | ].
    simpl. unfold mbind, M_bind, os_remove at 1. rewrite Hp.
    rewrite IH; [done | done | ].
    intros path Hin. simpl. rewrite lookup_delete_ne.
    + by apply Hthere, list_elem_of_further.
    + by intros <-.
Qed.

Lemma elem_of_glob (files : gmap string string) path :
  path ∈ filter (fun p => glob_match p) (map_to_list files).*1
  <-> glob_match path = true /\ is_Some (files !! path).
Proof.
  rewrite list_elem_of_filter, list_elem_of_fmap. split.
  - intros [Hmatch ([p content] & -> & Hin)]. apply elem_of_map_to_list in Hin.
    split; [by apply Is_true_true | by eexists].
  - intros [Hmatch [content Hin]]. split; [by apply Is_true_true | ].
    exists (path, content). split; [done | by apply elem_of_map_to_list].
Qed.

(** The reset never fails; it removes the files the pattern matches and
    touches nothing else. *)
Lemma remove_artifacts_spec st :
  exists st',
    remove_artifacts st = (Ok tt, st')
    /\ (forall path, fs st' !! path = if glob_match path then None else fs st !! path)
    /\ printed st' = printed st /\ opened st' = opened st
    /\ bar_total st' = bar_total st /\ bar_completed st' = bar_completed st.
Proof.
  eexists. split.
  - unfold remove_artifacts, mbind, M_bind, glob_glob.
    apply remove_each.
    + apply NoDup_filter, NoDup_fst_map_to_list.
    + intros path Hin. by apply elem_of_glob in Hin as [_ ?].
  - simpl. split_and!; try done.
    intros path. rewrite lookup_foldl_delete.
    destruct (glob_match path) eqn:Hmatch; case_decide as Hin; try done.
    + destruct (fs st !! path) eqn:Hp; [ | done].
      exfalso. apply Hin, elem_of_glob. eauto.
    + apply elem_of_glob in Hin as [? _]. congruence.
Qed.

(** *** One task *)

Lemma dump_run w module : exists o, forall st, dump_module_doc w module st = after module o st.
Proof. destruct (dump_outcome w module) as [o Ho]. exists o. intros st. by apply Ho. Qed.

(** A call changes the file system as [store] says. *)
Lemma dump_fs w module st : fs (dump_module_doc w module st).2 = store w (fs st) module.
Proof.
  unfold store, artifact. destruct (dump_run w module) as [o Ho].
  rewrite !Ho. destruct o; simpl; try done.
  by rewrite lookup_insert_eq.
Qed.

Lemma store_other w files module path :
  path <> module_path module -> store w files module !! path = files !! path.
Proof.
  intros Hne. unfold store. destruct (artifact w module); [ | done].
  by rewrite lookup_insert_ne.
Qed.

Lemma extracts_run w module :
  extracts w module ->
  exists o, (forall e, o <> Crashed e) /\ forall st, dump_module_doc w module st = after module o st.
Proof.
  intros [(returncode & out & Hrun & Hcode) | (out & data & entry & doc & Hrun & Hload & Hloc)].
  - exists Skipped. split; [done | ]. intros st. by eapply dump_skipped.
  - eexists (Written _). split; [done | ]. intros st. by eapply dump_written.
Qed.

(** *** The loop over the pool *)

Lemma run_ahead_other w i todo st path :
  (forall module, module ∈ todo -> path <> module_path module) ->
  fs (run_ahead w i todo st) !! path = fs st !! path.
Proof.
  revert i st. induction todo as [ | module todo IH]; intros i st Hpath; simpl.
  - done.
  - rewrite IH by (intros ? ?; by apply Hpath, list_elem_of_further).
    destruct (finished_early w i); [ | done].
    rewrite dump_fs. apply store_other, Hpath, list_elem_of_here.
Qed.

Lemma imap_loop_other w task_id i todo results st path :
  (forall module, module ∈ todo -> path <> module_path module) ->
  fs (imap_loop w task_id i todo results st).2 !! path = fs st !! path.
Proof.
  revert i results st. induction todo as [ | module todo IH]; intros i results st Hpath; simpl.
  - done.
  - assert (fs (dump_module_doc w module st).2 !! path = fs st !! path) as Hstep.
    { rewrite dump_fs. apply store_other, Hpath, list_elem_of_here. }
    destruct (dump_module_doc w module st) as [[result | e] st1]; simpl in *.
    + unfold mbind, M_bind, progress_advance at 1.
      rewrite IH by (intros ? ?; by apply Hpath, list_elem_of_further). done.
    + rewrite run_ahead_other by (intros ? ?; by apply Hpath, list_elem_of_further). done.
Qed.

Lemma imap_loop_returns w task_id i todo results st :
  Forall (extracts w) todo ->
  exists st',
    imap_loop w task_id i todo results st = (Ok (results ++ todo)%list, st')
    /\ fs st' = foldl (store w) (fs st) todo
    /\ bar_completed st' = bar_completed st + length todo
    /\ bar_total st' = bar_total st.
Proof.
  revert i results st. induction todo as [ | module todo IH]; intros i results st Hall; simpl.
  - exists st. rewrite app_nil_r. split_and!; [done | done | lia | done].
  - apply Forall_cons in Hall as [Hone Hall].
    pose proof (dump_fs w module st) as Hfs.
    destruct (extracts_run w module Hone) as (o & Hreturns & Ho).
    rewrite Ho in Hfs |- *.
    assert (exists st1, after module o st = (Ok module, st1)
                        /\ bar_completed st1 = bar_completed st
                        /\ bar_total st1 = bar_total st) as (st1 & Hafter & Hbar & Htotal).
    { destruct o; simpl; [eauto | by destruct (Hreturns e) | eauto]. }
    rewrite Hafter in Hfs |- *.
    unfold mbind, M_bind, progress_advance at 1. simpl in Hfs.
    edestruct (IH (S i) (results ++ [module])%list) as (st' & -> & Hfs' & Hbar' & Htotal');
      [done | ].
    exists st'. rewrite <- app_assoc. simpl in *.
    split_and!; [done | congruence | lia | congruence].
Qed.

(** *** The whole run *)

Lemma doc_dump_after_reset w st st1 :
  remove_artifacts st = (Ok tt, st1) ->
  doc_dump w st = (results ← collect_results w; mret None) st1.
Proof. intros Hreset. unfold doc_dump, mbind at 1, M_bind at 1. by rewrite Hreset. Qed.

Lemma collect_results_other w st path :
  (forall module, module ∈ ansible_modules w -> path <> module_path module) ->
  fs (collect_results w st).2 !! path = fs st !! path.
Proof.
  intros Hpath. unfold collect_results, mbind, M_bind, progress_add_task.
  by rewrite imap_loop_other.
Qed.

(** C8, as the code has it.  [doc_dump] takes no argument (the module
    names come from [ansible_modules()]) and returns [None].  When
    every extraction returns, as a success or as a skip, the list
    [results] the loop builds holds one entry for each of the N module
    names, in their order, and the progress bar has advanced N times
    out of N. *)
Theorem doc_dump_collects_every_result w st :
  Forall (extracts w) (ansible_modules w) ->
  exists st1 st2,
    remove_artifacts st = (Ok tt, st1)
    /\ collect_results w st1 = (Ok (ansible_modules w), st2)
    /\ doc_dump w st = (Ok None, st2)
    /\ bar_total st2 = length (ansible_modules w)
    /\ bar_completed st2 = length (ansible_modules w).
Proof.
  intros Hall.
  destruct (remove_artifacts_spec st) as (st1 & Hreset & _).
  assert (exists st2, collect_results w st1 = (Ok (ansible_modules w), st2)
                      /\ bar_total st2 = length (ansible_modules w)
                      /\ bar_completed st2 = length (ansible_modules w))
    as (st2 & Hcollect & Htotal & Hbar).
  { unfold collect_results, mbind, M_bind, progress_add_task.
    edestruct (imap_loop_returns w 0 0 (ansible_modules w) []) as (st2 & -> & _ & Hbar & Htotal);
      [exact Hall | ].
    exists st2. simpl in *. split_and!; [done | done | lia]. }
  exists st1, st2. split_and!; try done.
  rewrite (doc_dump_after_reset _ _ _ Hreset).
  unfold mbind, M_bind. by rewrite Hcollect.
Qed.

(** C9.  The reset comes first and never fails: when it is over no file
    matching [data/modules/*.json] exists and no file has been opened
    for writing yet, and the dispatch starts from there.  After the run,
    however it ends, the artifact of a module that is not in the
    catalogue does not exist, when its name is one the pattern
    matches. *)
Theorem doc_dump_removes_stale_artifacts w st stale :
  stale ∉ ansible_modules w ->
  glob_match (module_path stale) = true ->
  (exists st1,
      remove_artifacts st = (Ok tt, st1)
      /\ (forall path, glob_match path = true -> fs st1 !! path = None)
      /\ opened st1 = opened st
      /\ doc_dump w st = (results ← collect_results w; mret None) st1)
  /\ fs (doc_dump w st).2 !! module_path stale = None.
Proof.
  intros Hstale Hmatch.
  destruct (remove_artifacts_spec st) as (st1 & Hreset & Hfiles & _ & Hopened & _).
  assert (forall path, glob_match path = true -> fs st1 !! path = None) as Hgone.
  { intros path Hpath. by rewrite Hfiles, Hpath. }
  split.
  - exists st1. split_and!; try done. by apply doc_dump_after_reset.
  - rewrite (doc_dump_after_reset _ _ _ Hreset).
    assert (fs (collect_results w st1).2 !! module_path stale = None) as Hafter.
    { rewrite collect_results_other; [by apply Hgone | ].
      intros module Hin Heq. apply module_path_inj in Heq. by subst. }
    unfold mbind, M_bind.
    by destruct (collect_results w st1) as [[results | e] st2].
Qed.

(** *** Paths and the pattern *)

(** X4.  Two different modules never share an artifact. *)
Theorem artifact_paths_distinct module module' :
  module <> module' -> module_path module <> module_path module'.
Proof. intros Hne Heq. by apply Hne, module_path_inj. Qed.

Lemma drop_prefix_append (pre s : string) : drop_prefix pre (pre +:+ s) = Some s.
Proof.
  induction pre as [ | c pre IH]; [reflexivity | ].
  rewrite append_cons. simpl. by rewrite bool_decide_true.
Qed.

Lemma has_char_append c (a b : string) : has_char c (a +:+ b) = has_char c a || has_char c b.
Proof.
  induction a as [ | d a IH]; [reflexivity | ].
  rewrite append_cons. simpl. by rewrite IH, orb_assoc.
Qed.

Lemma ends_with_append (a suffix : string) : ends_with suffix (a +:+ suffix) = true.
Proof.
  induction a as [ | d a IH].
  - change (EmptyString +:+ suffix) with suffix.
    destruct suffix; simpl; rewrite ?bool_decide_true by done; done.
  - rewrite append_cons. simpl. rewrite IH. apply orb_true_r.
Qed.

(** The pattern matches the path of a module's artifact exactly when
    the module name is not empty, holds no slash and does not start
    with a dot. *)
Lemma glob_match_module_path module :
  glob_match (module_path module) = true
  <-> module <> EmptyString /\ has_char slash module = false
      /\ starts_with_char dot module = false.
Proof.
  unfold glob_match, module_path.
  rewrite drop_prefix_append, has_char_append, ends_with_append.
  change (has_char slash ".json") with false. rewrite orb_false_r, andb_true_r.
  destruct module as [ | c module].
  - split; [discriminate | by intros [? _]].
  - rewrite append_cons. simpl.
    rewrite andb_true_iff, !negb_true_iff. split.
    + intros [? ?]. by split_and!.
    + intros (_ & ? & ?). by split.
Qed.

(** X5.  For a module name without a slash, the reset never fails and
    removes the artifact of the module when the name is not empty and
    does not start with a dot; the artifact of the empty name or of a
    name that starts with a dot is left as it was. *)
Theorem remove_artifacts_module_path st module :
  has_char slash module = false ->
  (remove_artifacts st).1 = Ok tt
  /\ (module <> EmptyString -> starts_with_char dot module = false ->
      fs (remove_artifacts st).2 !! module_path module = None)
  /\ (module = EmptyString \/ starts_with_char dot module = true ->
      fs (remove_artifacts st).2 !! module_path module = fs st !! module_path module).
Proof.
  intros Hslash.
  destruct (remove_artifacts_spec st) as (st1 & -> & Hfiles & _). simpl.
  rewrite Hfiles. split_and!; [done | | ].
  - intros Hfull Hdot.
    by rewrite (proj2 (glob_match_module_path module)).
  - intros Hhidden.
    destruct (glob_match (module_path module)) eqn:Hmatch; [ | done].
    apply glob_match_module_path in Hmatch as (Hfull & _ & Hdot).
    destruct Hhidden as [-> | Hdot']; [done | congruence].
Qed.

(** *** What a run leaves on disk *)

Lemma lookup_foldl_store_other w todo (files : gmap string string) path :
  (forall module, module ∈ todo -> path <> module_path module) ->
  foldl (store w) files todo !! path = files !! path.
Proof.
  revert files. induction todo as [ | module todo IH]; intros files Hpath; simpl; [done | ].
  rewrite IH by (intros ? ?; by apply Hpath, list_elem_of_further).
  apply store_other, Hpath, list_elem_of_here.
Qed.

Lemma lookup_store_same w (files : gmap string string) module :
  store w files module !! module_path module
  = match artifact w module with
    | Some content => Some content
    | None => files !! module_path module
    end.
Proof. unfold store. destruct (artifact w module); [by rewrite lookup_insert_eq | done]. Qed.

Lemma lookup_foldl_store w todo (files : gmap string string) module :
  module ∈ todo ->
  foldl (store w) files todo !! module_path module
  = match artifact w module with
    | Some content => Some content
    | None => files !! module_path module
    end.
Proof.
  revert files. induction todo as [ | first todo IH]; intros files Hin.
  { by apply elem_of_nil in Hin. }
  simpl. destruct (decide (module ∈ todo)) as [Hlater | Hlast].
  - rewrite IH by done. destruct (artifact w module) eqn:Hart; [done | ].
    destruct (decide (first = module)) as [-> | Hne].
    + by rewrite lookup_store_same, Hart.
    + apply store_other. intros Heq. by apply Hne, module_path_inj.
  - apply elem_of_cons in Hin as [-> | Hin]; [ | done].
    rewrite lookup_foldl_store_other; [apply lookup_store_same | ].
    intros other Hother Heq. apply module_path_inj in Heq. by subst.
Qed.

Lemma artifact_skipped w module returncode out :
  spawn w ["ansible-doc"; "-j"; module] = Exited returncode out ->
  returncode <> 0%Z ->
  artifact w module = None.
Proof. intros Hrun Hcode. unfold artifact. by rewrite (dump_skipped _ _ _ _ _ Hrun Hcode). Qed.

Lemma artifact_written w module out data entry doc :
  spawn w ["ansible-doc"; "-j"; module] = Exited 0 out ->
  json_loads out = Some data ->
  located data module entry doc ->
  artifact w module = Some (json_dumps (sanitized data module entry doc) 2 true +:+ newline).
Proof.
  intros Hrun Hload Hloc. unfold artifact.
  rewrite (dump_written _ _ _ _ _ _ _ Hrun Hload Hloc). simpl. apply lookup_insert_eq.
Qed.

(** The files after a run in which every extraction returns: those the
    reset leaves, then what each module stores, in order. *)
Lemma doc_dump_fs w st :
  Forall (extracts w) (ansible_modules w) ->
  exists files,
    (forall path, files !! path = if glob_match path then None else fs st !! path)
    /\ (doc_dump w st).1 = Ok None
    /\ fs (doc_dump w st).2 = foldl (store w) files (ansible_modules w).
Proof.
  intros Hall.
  destruct (remove_artifacts_spec st) as (st1 & Hreset & Hfiles & _).
  exists (fs st1). split; [done | ].
  rewrite (doc_dump_after_reset _ _ _ Hreset).
  unfold collect_results, mbind, M_bind, progress_add_task.
  edestruct (imap_loop_returns w 0 0 (ansible_modules w) []) as (st2 & -> & Hfs & _);
    [exact Hall | ].
  by simpl in *.
Qed.

(** X6.  A run, however it ends, leaves alone every file that the
    pattern does not match and that is not the artifact of a module of
    the catalogue. *)
Theorem doc_dump_leaves_other_files w st path :
  glob_match path = false ->
  (forall module, module ∈ ansible_modules w -> path <> module_path module) ->
  fs (doc_dump w st).2 !! path = fs st !! path.
Proof.
  intros Hmatch Hpath.
  destruct (remove_artifacts_spec st) as (st1 & Hreset & Hfiles & _).
  rewrite (doc_dump_after_reset _ _ _ Hreset).
  pose proof (collect_results_other w st1 path Hpath) as Hsame.
  rewrite Hfiles, Hmatch in Hsame. unfold mbind, M_bind.
  by destruct (collect_results w st1) as [[results | e] st2].
Qed.

(** X7.  After a run in which every extraction returns, a module of
    the catalogue whose tool failed has no artifact, even if an earlier
    run had left one the pattern matches. *)
Theorem doc_dump_skipped_module_has_no_artifact w st module returncode out :
  Forall (extracts w) (ansible_modules w) ->
  module ∈ ansible_modules w ->
  spawn w ["ansible-doc"; "-j"; module] = Exited returncode out ->
  returncode <> 0%Z ->
  glob_match (module_path module) = true ->
  fs (doc_dump w st).2 !! module_path module = None.
Proof.
  intros Hall Hin Hrun Hcode Hmatch.
  destruct (doc_dump_fs w st Hall) as (files & Hfiles & _ & ->).
  rewrite lookup_foldl_store by done.
  by rewrite (artifact_skipped _ _ _ _ Hrun Hcode), Hfiles, Hmatch.
Qed.

(** X8.  After a run in which every extraction returns, the artifact of
    a module of the catalogue whose tool succeeded holds the sanitized
    document of that module, also when the module is listed more than
    once. *)
Theorem doc_dump_extracted_module_has_artifact w st module out data entry doc :
  Forall (extracts w) (ansible_modules w) ->
  module ∈ ansible_modules w ->
  spawn w ["ansible-doc"; "-j"; module] = Exited 0 out ->
  json_loads out = Some data ->
  located data module entry doc ->
  fs (doc_dump w st).2 !! module_path module
  = Some (json_dumps (sanitized data module entry doc) 2 true +:+ newline).
Proof.
  intros Hall Hin Hrun Hload Hloc.
  destruct (doc_dump_fs w st Hall) as (files & _ & _ & ->).
  rewrite lookup_foldl_store by done.
  by rewrite (artifact_written _ _ _ _ _ _ Hrun Hload Hloc).
Qed.

Lemma lookup_foldl_store_cases w todo path :
  exists stored : option string,
    forall files : gmap string string,
      foldl (store w) files todo !! path
      = match stored with
        | Some content => Some content
        | None => files !! path
        end.
Proof.
  induction todo as [ | module todo [stored IH]].
  - by exists None.
  - destruct stored as [content | ].
    + exists (Some content). intros files. simpl. by rewrite IH.
    + destruct (decide (path = module_path module)) as [-> | Hne].
      * exists (artifact w module). intros files. simpl. rewrite IH. apply lookup_store_same.
      * exists None. intros files. simpl. rewrite IH. by apply store_other.
Qed.

(** X9.  Rebuilding is idempotent: when every extraction returns, a
    second run on the files the first run left, against the same tool,
    leaves the same files. *)
Theorem doc_dump_idempotent w st :
  Forall (extracts w) (ansible_modules w) ->
  fs (doc_dump w (doc_dump w st).2).2 = fs (doc_dump w st).2.
Proof.
  intros Hall.
  destruct (doc_dump_fs w (doc_dump w st).2 Hall) as (files2 & Hfiles2 & _ & ->).
  destruct (doc_dump_fs w st Hall) as (files1 & Hfiles1 & _ & Hfs1).
  rewrite Hfs1 in Hfiles2 |- *.
  apply map_eq. intros path.
  destruct (lookup_foldl_store_cases w (ansible_modules w) path) as [stored Hstored].
  rewrite !Hstored. destruct stored as [content | ]; [done | ].
  rewrite Hfiles2, Hstored, Hfiles1. by destruct (glob_match path).
Qed.

Lemma run_ahead_bar w i todo st :
  bar_total (run_ahead w i todo st) = bar_total st
  /\ bar_completed (run_ahead w i todo st) = bar_completed st.
Proof.
  revert i st. induction todo as [ | module todo IH]; intros i st; simpl; [done | ].
  destruct (IH (S i) (if finished_early w i then (dump_module_doc w module st).2 else st))
    as [-> ->].
  destruct (finished_early w i); [ | done].
  destruct (dump_run w module) as [o Ho]. rewrite Ho. by destruct o.
Qed.

Lemma imap_loop_aborts w task_id i before module rest results st e :
  Forall (extracts w) before ->
  (forall st', dump_module_doc w module st' = (Raise e, st')) ->
  (imap_loop w task_id i (before ++ module :: rest) results st).1 = Raise e
  /\ bar_total (imap_loop w task_id i (before ++ module :: rest) results st).2 = bar_total st
  /\ bar_completed (imap_loop w task_id i (before ++ module :: rest) results st).2
     = bar_completed st + length before.
Proof.
  intros Hall Hcrash. revert i results st.
  induction Hall as [ | first before Hfirst Hall IH]; intros i results st; simpl.
  - rewrite Hcrash. simpl. destruct (run_ahead_bar w (S i) rest st) as [-> ->].
    split_and!; [done | done | lia].
  - destruct (extracts_run w first Hfirst) as (o & Hreturns & Ho). rewrite Ho.
    assert (exists st1, after first o st = (Ok first, st1)
                        /\ bar_completed st1 = bar_completed st
                        /\ bar_total st1 = bar_total st) as (st1 & -> & Hbar & Htotal).
    { destruct o; simpl; [eauto | by destruct (Hreturns e0) | eauto]. }
    unfold mbind, M_bind, progress_advance at 1 2 3.
    edestruct IH as (-> & -> & ->). simpl. split_and!; [done | done | lia].
Qed.

(** X10.  One module with unusable output aborts the batch: when the
    modules before it return and its tool exits with status zero but
    prints a malformed document, [doc_dump] raises the exception of
    that module, with the progress bar stopped at the number of modules
    before it. *)
Theorem doc_dump_aborts_on_malformed_output w st before module rest out e :
  ansible_modules w = (before ++ module :: rest)%list ->
  Forall (extracts w) before ->
  spawn w ["ansible-doc"; "-j"; module] = Exited 0 out ->
  malformed out module e ->
  (doc_dump w st).1 = Raise e
  /\ bar_total (doc_dump w st).2 = length (ansible_modules w)
  /\ bar_completed (doc_dump w st).2 = length before.
Proof.
  intros Hmodules Hbefore Hrun Hbad.
  assert (forall st', dump_module_doc w module st' = (Raise e, st')) as Hcrash.
  { intros st'. by apply dump_malformed with out. }
  destruct (remove_artifacts_spec st) as (st1 & Hreset & _).
  rewrite (doc_dump_after_reset _ _ _ Hreset).
  unfold collect_results, mbind, M_bind, progress_add_task. rewrite Hmodules.
  match goal with
  | |- context [imap_loop w 0 0 _ [] ?st0] =>
      destruct (imap_loop_aborts w 0 0 before module rest [] st0 e Hbefore Hcrash)
        as (Hraised & Htotal & Hbar);
      destruct (imap_loop w 0 0 (before ++ module :: rest) [] st0) as [[results | e'] st2]
  end; simpl in *.
  - discriminate.
  - injection Hraised as ->. split_and!; [done | done | lia].
Qed.

End orchestrator.

(** ** The schema build driver *)

Section driver.
Variable b : builder.
Implicit Types (st : state) (item : string * model).

Lemma path_join_inj (dir name name' : string) :
  path_join dir name = path_join dir name' -> name = name'.
Proof.
  unfold path_join. destruct (ends_with "/" dir); intros Heq.
  - by apply String.app_inj in Heq.
  - apply String.app_inj in Heq. by apply (String.app_inj "/") in Heq.
Qed.

Lemma schema_file_inj (filename filename' : string) :
  schema_file b filename = schema_file b filename' -> filename = filename'.
Proof. intros Heq. apply path_join_inj in Heq. by apply append_inv_tail in Heq. Qed.

Lemma build_schema_built item st filename text :
  dict_getitem schema_filenames item.1 = Ok filename ->
  schema_json b item.2 2 true = Ok text ->
  build_schema b item st
  = (Ok tt, written (schema_file b filename) (text +:+ newline) (logged (building item.1) st)).
Proof.
  intros Hname Htext.
  unfold build_schema, mbind, M_bind, lift, print, open_w, file_write, with_fs.
  rewrite Hname, Htext. unfold written, logged, schema_file. simpl.
  f_equal. apply state_eq; simpl; try reflexivity.
  rewrite !lookup_insert_eq; simpl. by rewrite !insert_insert_eq.
Qed.

Lemma build_schema_raised item st filename e :
  dict_getitem schema_filenames item.1 = Ok filename ->
  schema_json b item.2 2 true = Raise e ->
  build_schema b item st
  = (Raise e, written (schema_file b filename) EmptyString (logged (building item.1) st)).
Proof.
  intros Hname Htext.
  unfold build_schema, mbind, M_bind, lift, print, open_w.
  by rewrite Hname, Htext.
Qed.

(** Every key of [schemas] is a key of [schema_filenames]. *)
Lemma schema_has_filename item :
  item ∈ schemas -> exists filename, dict_getitem schema_filenames item.1 = Ok filename.
Proof.
  unfold schemas. intros Hin.
  repeat (apply elem_of_cons in Hin as [-> | Hin]; [by eexists | ]).
  by apply elem_of_nil in Hin.
Qed.

Lemma for_each_app {A : Type} (body : A -> M unit) (xs ys : list A) st :
  for_each body (xs ++ ys) st
  = match for_each body xs st with
    | (Ok _, st') => for_each body ys st'
    | (Raise e, st') => (Raise e, st')
    end.
Proof.
  revert st. induction xs as [ | x xs IH]; intros st; [done | ].
  rewrite <- app_comm_cons. cbn [for_each]. unfold mbind, M_bind.
  destruct (body x st) as [[[] | e] st1]; [apply IH | done].
Qed.

Lemma for_each_build_schema (text : model -> string) items st :
  (forall item, item ∈ items -> schema_json b item.2 2 true = Ok (text item.2)) ->
  (forall item, item ∈ items -> item ∈ schemas) ->
  exists st',
    for_each (build_schema b) items st = (Ok tt, st')
    /\ printed st' = (printed st ++ ((fun item => building item.1) <$> items))%list
    /\ opened st' = (opened st ++ (item_file b <$> items))%list
    /\ (forall path,
          (forall item filename,
              item ∈ items -> dict_getitem schema_filenames item.1 = Ok filename ->
              path <> schema_file b filename) ->
          fs st' !! path = fs st !! path)
    /\ bar_total st' = bar_total st /\ bar_completed st' = bar_completed st.
Proof.
  revert st. induction items as [ | item items IH]; intros st Htext Hitems.
  - exists st. simpl. rewrite !app_nil_r. by split_and!.
  - destruct (schema_has_filename item) as [filename Hname].
    { apply Hitems, list_elem_of_here. }
    cbn [for_each]. unfold mbind at 1, M_bind at 1.
    rewrite (build_schema_built _ _ _ _ Hname (Htext _ (list_elem_of_here _ _))).
    edestruct IH as (st' & -> & Hprinted & Hopened & Hfiles & Htotal & Hcompleted).
    { intros ? ?. by apply Htext, list_elem_of_further. }
    { intros ? ?. by apply Hitems, list_elem_of_further. }
    exists st'. split; [done | ]. split.
    { rewrite Hprinted, fmap_cons. cbn [printed written logged]. by rewrite <- app_assoc. }
    split.
    { rewrite Hopened, fmap_cons. cbn [opened written logged]. unfold item_file at 2.
      rewrite Hname. by rewrite <- app_assoc. }
    split; [ | by split].
    intros path Hpath. rewrite Hfiles.
    + cbn [fs written logged]. apply lookup_insert_ne. intros <-.
      apply (Hpath item filename); [apply list_elem_of_here | done | done].
    + intros item' filename' Hin. by apply Hpath, list_elem_of_further.
Qed.

(** X11.  When every model yields its schema, [main] returns after
    printing one line per schema, in the order of the dict; afterwards
    the file of each schema holds the schema of its own model followed
    by a newline (no two schemas share a file), and no file outside the
    nine has changed. *)
Theorem main_builds_every_schema (text : model -> string) st :
  (forall m, schema_json b m 2 true = Ok (text m)) ->
  (main b st).1 = Ok tt
  /\ printed (main b st).2 = (printed st ++ ((fun item => building item.1) <$> schemas))%list
  /\ (forall schema m filename,
        (schema, m) ∈ schemas ->
        dict_getitem schema_filenames schema = Ok filename ->
        fs (main b st).2 !! schema_file b filename = Some (text m +:+ newline))
  /\ (forall path,
        (forall filename, filename ∈ schema_filenames.*2 -> path <> schema_file b filename) ->
        fs (main b st).2 !! path = fs st !! path).
Proof.
  intros Htext.
  destruct (for_each_build_schema text schemas st) as (st' & Hrun & Hprinted & _ & Hother & _);
    [done | done | ].
  unfold main. rewrite Hrun. simpl. split_and!; [done | done | | ].
  - clear Hprinted Hother. intros schema m filename Hin Hname.
    revert Hrun. unfold schemas, for_each, mbind, M_bind.
    repeat (erewrite build_schema_built; [ | reflexivity | apply Htext]).
    intros [= <-]. simpl.
    unfold schemas in Hin.
    repeat (apply elem_of_cons in Hin as [[= -> ->] | Hin];
            [injection Hname as <-;
             rewrite ?lookup_insert_ne
               by (intros Heq; apply schema_file_inj in Heq; discriminate Heq);
             apply lookup_insert_eq | ]).
    by apply elem_of_nil in Hin.
  - intros path Hpath. apply Hother. intros item filename Hin Hname.
    unfold schemas in Hin.
    repeat (apply elem_of_cons in Hin as [-> | Hin];
            [injection Hname as <-; apply Hpath, (bool_decide_unpack _); vm_compute;
             exact I | ]).
    by apply elem_of_nil in Hin.
Qed.

(** X12.  The first model that fails stops [main]: the exception
    leaves [main], the schemas before it have been built, the file of
    the failing schema has been opened and is left empty, and no later
    schema is announced or opened. *)
Theorem main_stops_at_first_failure (text : model -> string) st before schema m rest filename e :
  schemas = (before ++ (schema, m) :: rest)%list ->
  (forall item, item ∈ before -> schema_json b item.2 2 true = Ok (text item.2)) ->
  dict_getitem schema_filenames schema = Ok filename ->
  schema_json b m 2 true = Raise e ->
  (main b st).1 = Raise e
  /\ fs (main b st).2 !! schema_file b filename = Some EmptyString
  /\ printed (main b st).2
     = (printed st ++ ((fun item => building item.1) <$> before) ++ [building schema])%list
  /\ opened (main b st).2
     = (opened st ++ (item_file b <$> before) ++ [schema_file b filename])%list.
Proof.
  intros Hsplit Htext Hname Hfail.
  destruct (for_each_build_schema text before st Htext)
    as (st1 & Hrun & Hprinted & Hopened & _).
  { intros item Hin. rewrite Hsplit. apply elem_of_app. by left. }
  unfold main. rewrite Hsplit, for_each_app, Hrun.
  cbn [for_each]. unfold mbind, M_bind.
  rewrite (build_schema_raised (schema, m) st1 filename e Hname Hfail).
  cbn [fst snd fs printed opened written logged].
  rewrite Hprinted, Hopened, <- !app_assoc.
  split_and!; [done | apply lookup_insert_eq | done | done].
Qed.

End driver.

(** ** The Galaxy platform dump *)

Section galaxy.
Context `{P : PyValues}.
(** A [str] equals the same [str] and no other value. *)
Hypothesis py_eq_str : forall s v, py_eq (JStr s) v = true <-> v = JStr s.
Implicit Types (platforms : list (string * list json)) (name : string) (release entry : json).

Lemma dict_has_false {V : Type} (d : list (string * V)) key :
  dict_has d key = false <-> key ∉ d.*1.
Proof.
  induction d as [ | [k v] d IH]; simpl.
  - split; [intros _; apply not_elem_of_nil | done].
  - rewrite orb_false_iff, IH, not_elem_of_cons, bool_decide_eq_false. naive_solver.
Qed.

Lemma dict_setitem_new {V : Type} (d : list (string * V)) key v :
  dict_has d key = false -> dict_setitem d key v = (d ++ [(key, v)])%list.
Proof.
  induction d as [ | [k v'] d IH]; simpl; [done | ].
  rewrite orb_false_iff. intros [Hk Hd]. rewrite Hk. by rewrite IH.
Qed.

Lemma dict_getitem_new {V : Type} (d : list (string * V)) key v :
  dict_has d key = false -> dict_getitem (d ++ [(key, v)]) key = Ok v.
Proof.
  induction d as [ | [k v'] d IH]; simpl.
  - intros _. by rewrite bool_decide_true.
  - rewrite orb_false_iff. intros [-> Hd]. by apply IH.
Qed.

Lemma dict_append_new {V : Type} (d : list (string * list V)) key items x :
  dict_has d key = false ->
  dict_append (d ++ [(key, items)]) key x = Ok (d ++ [(key, (items ++ [x])%list)])%list.
Proof.
  induction d as [ | [k items'] d IH]; simpl.
  - intros _. by rewrite bool_decide_true.
  - rewrite orb_false_iff. intros [-> Hd]. by rewrite IH.
Qed.

(** Where a key sits in a dict, and what appending to its list does. *)
Lemma dict_locate {V : Type} (d : list (string * list V)) key :
  dict_has d key = true ->
  exists before items later,
    d = (before ++ (key, items) :: later)%list /\ (key ∉ before.*1)
    /\ dict_getitem d key = Ok items
    /\ forall x, dict_append d key x = Ok (before ++ (key, items ++ [x]) :: later)%list.
Proof.
  induction d as [ | [k items] d IH]; simpl; [done | ].
  case_bool_decide as Hk; simpl.
  - subst k. intros _. exists [], items, d. split_and!; try done. apply not_elem_of_nil.
  - intros Hd. destruct (IH Hd) as (before & items' & later & -> & Hfresh & Hget & Happend).
    exists ((k, items) :: before), items', later. split_and!; try done.
    + simpl. rewrite not_elem_of_cons. by split; [intros -> | ].
    + intros x. by rewrite Happend.
Qed.

Lemma dict_locate_new platforms name :
  dict_has platforms name = false ->
  dict_has (platforms ++ [(name, [])]) name = true.
Proof.
  intros _. unfold dict_has. rewrite existsb_app. simpl.
  rewrite bool_decide_true by done. by rewrite orb_true_r.
Qed.

Lemma with_room_has platforms name : dict_has (with_room platforms name) name = true.
Proof.
  unfold with_room. destruct (dict_has platforms name) eqn:Hhas; [done | ].
  by apply dict_locate_new.
Qed.

(** What the loop body does for an entry with a usable name. *)
Lemma add_platform_named platforms fields name :
  fields !! "name" = Some (JStr name) ->
  name <> EmptyString ->
  exists before items later,
    with_room platforms name = (before ++ (name, items) :: later)%list
    /\ (name ∉ before.*1)
    /\ add_platform platforms (JObj fields)
       = Ok (if negb (py_in (default JNull (fields !! "release")) [JStr "any"; JStr "None"])
                && negb (py_in (default JNull (fields !! "release")) items)
             then (before ++ (name, items ++ [default JNull (fields !! "release")]) :: later)%list
             else with_room platforms name).
Proof.
  intros Hname Hfull.
  destruct (dict_locate _ _ (with_room_has platforms name))
    as (before & items & later & Hroom & Hfresh & Hget & Happend).
  exists before, items, later. split_and!; [done | done | ].
  unfold add_platform, py_get, res_bind. rewrite Hname.
  change (default JNull (Some (JStr name))) with (JStr name). cbn [truthy isinstance_str].
  rewrite bool_decide_false by done. cbn [negb orb andb].
  assert ((if negb (dict_has platforms name) then dict_setitem platforms name []
           else platforms) = with_room platforms name) as ->.
  { unfold with_room. destruct (dict_has platforms name) eqn:Hhas; simpl; [done | ].
    by apply dict_setitem_new. }
  destruct (negb (py_in _ [JStr "any"; JStr "None"])); [ | done].
  rewrite Hget. cbn [andb]. destruct (negb (py_in _ items)); [apply Happend | done].
Qed.

Lemma add_platform_ignored platforms entry :
  ignored entry -> add_platform platforms entry = Ok platforms.
Proof.
  destruct entry as [ | | | | | | fields]; try done.
  unfold ignored, add_platform, py_get, res_bind.
  destruct (fields !! "name") as [[ | | | | name | | ] | ]; intros Hname; simpl;
    rewrite ?orb_true_r; try done.
  by subst name.
Qed.

Lemma add_platform_cases platforms entry :
  ignored entry
  \/ exists fields name,
       entry = JObj fields /\ fields !! "name" = Some (JStr name) /\ name <> EmptyString.
Proof.
  destruct entry as [ | | | | | | fields]; try (by left).
  unfold ignored.
  destruct (fields !! "name") as [[ | | | | name | | ] | ] eqn:Hname; try (by left).
  destruct (decide (name = EmptyString)) as [-> | Hfull]; [by left | right; eauto].
Qed.

(** X13.  The body of the inner loop never raises: line 48 has made
    room for the name by the time lines 50 and 51 look it up, so the
    [KeyError] of [platforms[name]] cannot happen. *)
Theorem add_platform_never_raises platforms entry :
  exists platforms', add_platform platforms entry = Ok platforms'.
Proof.
  destruct (add_platform_cases platforms entry) as [Hskip | (fields & name & -> & Hname & Hfull)].
  - exists platforms. by apply add_platform_ignored.
  - destruct (add_platform_named platforms fields name Hname Hfull)
      as (before & items & later & _ & _ & ->).
    by eexists.
Qed.

Lemma py_in_false release items :
  py_in release items = false <-> Forall (fun item => py_eq item release = false) items.
Proof.
  unfold py_in. induction items as [ | item items IH]; simpl.
  - split; [by constructor | done].
  - rewrite orb_false_iff, IH, Forall_cons. done.
Qed.

Lemma distinct_snoc items release :
  distinct items -> py_in release items = false -> distinct (items ++ [release]).
Proof.
  rewrite py_in_false. induction items as [ | item items IH]; simpl.
  - intros _ _. by split; [constructor | ].
  - intros [Hlater Hrest] [Hitem Hitems]%Forall_cons. split.
    + apply Forall_app. split; [done | by constructor].
    + by apply IH.
Qed.

Lemma not_reserved release (word : string) :
  py_eq (JStr word) release = false -> release <> JStr word.
Proof. intros Hne ->. by rewrite (proj2 (py_eq_str word (JStr word)) eq_refl) in Hne. Qed.

Lemma tidy_with_room platforms name :
  name <> EmptyString -> tidy platforms -> tidy (with_room platforms name).
Proof.
  intros Hfull [Hkeys Hentries]. unfold with_room.
  destruct (dict_has platforms name) eqn:Hhas; [done | ].
  apply dict_has_false in Hhas. split.
  - rewrite fmap_app. apply NoDup_app. split_and!; [done | | apply NoDup_singleton].
    intros key Hkey ->%list_elem_of_singleton. done.
  - apply Forall_app. split; [done | ]. constructor; [ | constructor].
    split_and!; simpl; [done | apply not_elem_of_nil | apply not_elem_of_nil | done].
Qed.

Lemma add_platform_tidy platforms entry platforms' :
  tidy platforms -> add_platform platforms entry = Ok platforms' -> tidy platforms'.
Proof.
  intros Htidy.
  destruct (add_platform_cases platforms entry) as [Hskip | (fields & name & -> & Hname & Hfull)].
  { rewrite add_platform_ignored by done. by intros [= <-]. }
  destruct (add_platform_named platforms fields name Hname Hfull)
    as (before & items & later & Hroom & _ & ->).
  pose proof (tidy_with_room platforms name Hfull Htidy) as Htidy'.
  set (release := default JNull (fields !! "release")).
  destruct (negb (py_in release [JStr "any"; JStr "None"])) eqn:Hreserved;
    [ | by intros [= <-]].
  destruct (negb (py_in release items)) eqn:Hnew; [ | by intros [= <-]].
  intros [= <-]. rewrite Hroom in Htidy'. destruct Htidy' as [Hkeys Hentries].
  apply negb_true_iff in Hreserved, Hnew.
  apply py_in_false in Hreserved.
  apply Forall_cons in Hreserved as [Hany [Hnone _]%Forall_cons].
  split.
  - by rewrite fmap_app, fmap_cons in Hkeys |- *.
  - apply Forall_app in Hentries as [Hbefore [Hentry Hlater]%Forall_cons].
    apply Forall_app. split; [done | ]. constructor; [ | done].
    destruct Hentry as (? & Hno_any & Hno_none & Hdistinct). simpl in *.
    split_and!; simpl; [done | | | by apply distinct_snoc].
    + rewrite elem_of_app, list_elem_of_singleton.
      intros [? | Heq]; [done | ]. by apply (not_reserved release "any").
    + rewrite elem_of_app, list_elem_of_singleton.
      intros [? | Heq]; [done | ]. by apply (not_reserved release "None").
Qed.

Lemma add_platforms_tidy entries platforms platforms' :
  tidy platforms -> add_platforms platforms entries = Ok platforms' -> tidy platforms'.
Proof.
  revert platforms. induction entries as [ | entry entries IH]; intros platforms Htidy; simpl.
  - by intros [= <-].
  - destruct (add_platform platforms entry) as [platforms1 | e] eqn:Hstep; [ | done].
    simpl. apply IH. by eapply add_platform_tidy.
Qed.

Lemma fetch_platforms_tidy h fuel result platforms platforms' :
  tidy platforms ->
  fetch_platforms h fuel result platforms = Some (Ok platforms') ->
  tidy platforms'.
Proof.
  revert result platforms. induction fuel as [ | fuel IH]; intros result platforms Htidy;
    simpl; [done | ].
  repeat case_match; try done.
  - apply IH. by eapply add_platforms_tidy.
  - by intros [= <-].
Qed.

Lemma fetch_platforms_collects_tidy_aux h fuel platforms :
  fetch_platforms h fuel first_page [] = Some (Ok platforms) -> tidy platforms.
Proof.
  apply fetch_platforms_tidy. split; [apply NoDup_nil_2 | constructor].
Qed.

(** X14.  The platforms the loop collects are tidy: every name occurs
    once and is not empty, and no list of releases holds the string
    [any], the string [None], or a value equal to an earlier one. *)
Theorem fetch_platforms_collects_tidy h fuel platforms :
  fetch_platforms h fuel first_page [] = Some (Ok platforms) -> tidy platforms.
Proof. apply fetch_platforms_collects_tidy_aux. Qed.

(** X15.  An entry with a usable name and no release, or the release
    [null], records Python's [None] as a release: the loop filters the
    string ['None'], not the value.  For a platform not seen before the
    dict grows by the name with the one release [None]. *)
Theorem add_platform_without_release platforms fields name :
  fields !! "name" = Some (JStr name) ->
  name <> EmptyString ->
  default JNull (fields !! "release") = JNull ->
  dict_has platforms name = false ->
  add_platform platforms (JObj fields) = Ok (platforms ++ [(name, [JNull])])%list.
Proof.
  intros Hname Hfull Hrelease Hnew.
  unfold add_platform, py_get, res_bind. rewrite Hname, Hrelease.
  change (default JNull (Some (JStr name))) with (JStr name). cbn [truthy isinstance_str].
  rewrite bool_decide_false by done. rewrite Hnew. cbn [negb orb andb].
  assert (py_in JNull [JStr "any"; JStr "None"] = false) as ->.
  { apply py_in_false. repeat constructor; apply not_true_is_false; by rewrite py_eq_str. }
  cbn [negb]. rewrite (dict_setitem_new _ _ _ Hnew), (dict_getitem_new _ _ _ Hnew).
  cbn [py_in existsb negb]. apply (dict_append_new platforms name [] JNull Hnew).
Qed.

(** X16.  An entry that carries the release [any] or [None] (the
    strings) still makes room for its platform, and adds no release:
    a platform seen with such releases only is listed with an empty
    list. *)
Theorem add_platform_reserved_release platforms fields name word :
  fields !! "name" = Some (JStr name) ->
  name <> EmptyString ->
  fields !! "release" = Some (JStr word) ->
  word ∈ ["any"; "None"] ->
  add_platform platforms (JObj fields) = Ok (with_room platforms name).
Proof.
  intros Hname Hfull Hrelease Hword.
  destruct (add_platform_named platforms fields name Hname Hfull)
    as (before & items & later & _ & _ & ->).
  rewrite Hrelease. change (default JNull (Some (JStr word))) with (JStr word).
  assert (py_in (JStr word) [JStr "any"; JStr "None"] = true) as ->; [ | done].
  unfold py_in. cbn [existsb].
  apply elem_of_cons in Hword as [-> | Hword].
  - by rewrite (proj2 (py_eq_str "any" (JStr "any")) eq_refl).
  - apply list_elem_of_singleton in Hword as ->.
    rewrite (proj2 (py_eq_str "None" (JStr "None")) eq_refl). apply orb_true_r.
Qed.

(** X17.  The loop passes over an entry that is not a dict, or whose
    name is missing, not a [str], or empty: the platforms stay as they
    are. *)
Theorem add_platform_passes_over platforms entry :
  ignored entry -> add_platform platforms entry = Ok platforms.
Proof. apply add_platform_ignored. Qed.

Lemma fetch_platforms_more_fuel h fuel fuel' result platforms r :
  fetch_platforms h fuel result platforms = Some r ->
  fuel <= fuel' ->
  fetch_platforms h fuel' result platforms = Some r.
Proof.
  revert fuel' result platforms. induction fuel as [ | fuel IH];
    intros fuel' result platforms; [done | ].
  destruct fuel' as [ | fuel']; [lia | ]. intros Hrun Hle. simpl in *.
  repeat case_match; try done. apply IH; [done | lia].
Qed.

(** X18.  When the first page the server sends lists its entries and
    carries no further link, the loop ends after that one request, to
    [GALAXY_API_URL + '/api/v1/platforms/'], with the platforms of the
    page. *)
Theorem fetch_platforms_single_page h fuel fields entries :
  http_get_json h "https://galaxy.ansible.com/api/v1/platforms/" = Ok (JObj fields) ->
  fields !! "results" = Some (JArr entries) ->
  truthy (default JNull (fields !! "next_link")) = false ->
  2 <= fuel ->
  fetch_platforms h fuel first_page [] = Some (add_platforms [] entries).
Proof.
  intros Hpage Hresults Hlast Hfuel.
  apply (fetch_platforms_more_fuel h 2); [ | done].
  cbn [fetch_platforms first_page py_get getitem].
  rewrite lookup_insert_eq. cbn [default from_option id truthy].
  rewrite bool_decide_false by done. cbn [negb].
  change (GALAXY_API_URL +:+ "/api/v1/platforms/")
    with "https://galaxy.ansible.com/api/v1/platforms/".
  rewrite Hpage. cbn [getitem]. rewrite Hresults. cbn [res_bind py_iter].
  destruct (add_platforms [] entries) as [platforms | e]; [ | done].
  cbn [py_get]. by rewrite Hlast.
Qed.

(** X19.  In a run of [dump_galaxy_platforms] that ends, the notice is
    printed and no file but [_galaxy.py] changes.  If the run returns,
    the loop has ended with tidy platforms and the file holds the
    header, a blank line and the assignment of their text.  If it
    raises, the exception is the one the loop met, and the file system
    is as it was: [_galaxy.py] is opened only after the last page. *)
Theorem dump_galaxy_platforms_effect h fuel st r st' :
  dump_galaxy_platforms h fuel st = Some (r, st') ->
  printed st' = (printed st ++ ["Dumping list of Galaxy platforms to " +:+ galaxy_filename h])%list
  /\ (forall path, path <> galaxy_filename h -> fs st' !! path = fs st !! path)
  /\ match r with
     | Ok _ =>
         exists platforms,
           fetch_platforms h fuel first_page [] = Some (Ok platforms)
           /\ tidy platforms
           /\ opened st' = (opened st ++ [galaxy_filename h])%list
           /\ fs st' !! galaxy_filename h
              = Some (GENERATED_HEADER +:+ newline +:+ "GALAXY_PLATFORMS = "
                      +:+ py_repr platforms +:+ newline)
     | Raise e =>
         fetch_platforms h fuel first_page [] = Some (Raise e)
         /\ fs st' = fs st /\ opened st' = opened st
     end.
Proof.
  unfold dump_galaxy_platforms.
  destruct (fetch_platforms h fuel first_page []) as [[platforms | e] | ] eqn:Hloop; [ | | done].
  - unfold mbind, M_bind, open_w, file_write, with_fs, print. simpl.
    intros [= <- <-]. simpl. split_and!; [done | | ].
    + intros path Hpath. by rewrite !lookup_insert_ne.
    + exists platforms. split_and!; [done | | done | ].
      * by apply fetch_platforms_collects_tidy_aux with h fuel.
      * by rewrite !lookup_insert_eq.
  - intros [= <- <-]. by split_and!.
Qed.

End galaxy.

(** ** The theorems at work on the demo host *)

Lemma located_ping : located (JObj ping_data) "ping" ping_entry ping_doc.
Proof. exists ping_data. split_and!; reflexivity. Defined.

Lemma extracts_ping modules : extracts (H := demo_json) (demo_world modules) "ping".
Proof.
  right. exists ping_stdout, (JObj ping_data), ping_entry, ping_doc.
  split_and!; [reflexivity | reflexivity | exact located_ping].
Defined.

Lemma extracts_copy modules : extracts (H := demo_json) (demo_world modules) "copy".
Proof. left. exists 1%Z, EmptyString. split; [reflexivity | discriminate]. Defined.

Lemma dump_module_doc_tool_failure_witness :
  spawn (demo_world []) ["ansible-doc"; "-j"; "copy"] = Exited 1 EmptyString
  /\ ((dump_module_doc (H := demo_json) (demo_world []) "copy" demo_state).1 = Ok "copy"
      /\ printed (dump_module_doc (H := demo_json) (demo_world []) "copy" demo_state).2
         = ["Module copy skipped as it failed to export documentation."]
      /\ opened (dump_module_doc (H := demo_json) (demo_world []) "copy" demo_state).2 = []
      /\ fs (dump_module_doc (H := demo_json) (demo_world []) "copy" demo_state).2
         = fs demo_state)
  /\ spawn (demo_world []) ["ansible-doc"; "-j"; "ping"] = Exited 0 ping_stdout
  /\ ((dump_module_doc (H := demo_json) (demo_world []) "ping" demo_state).1 = Ok "ping"
      /\ printed (dump_module_doc (H := demo_json) (demo_world []) "ping" demo_state).2 = []
      /\ opened (dump_module_doc (H := demo_json) (demo_world []) "ping" demo_state).2
         = ["data/modules/ping.json"]
      /\ fs (dump_module_doc (H := demo_json) (demo_world []) "ping" demo_state).2
         = <["data/modules/ping.json"
             := json_dumps (JsonLib := demo_json)
                  (sanitized (JObj ping_data) "ping" ping_entry ping_doc) 2 true +:+ newline]>
             (fs demo_state)).
Proof.
  split; [reflexivity | ]. split.
  { apply (proj1 (dump_module_doc_tool_failure (J := demo_json) (demo_world []) "copy"
                    demo_state) 1%Z EmptyString); [reflexivity | discriminate]. }
  split; [reflexivity | ].
  apply (proj1 (proj2 (dump_module_doc_tool_failure (J := demo_json) (demo_world []) "ping"
                         demo_state)) ping_stdout (JObj ping_data) ping_entry ping_doc);
    [reflexivity | reflexivity | exact located_ping].
Defined.

(** C3 fails on the code in one point: the value a skipped call returns
    is the value a successful call for the same module returns, so
    nothing computed from the returned value tells the skip. *)
Lemma dump_module_doc_skip_is_unmarked :
  printed (dump_module_doc (H := demo_json) failing_world "ping" demo_state).2
  = [skip_notice "ping"]
  /\ opened (dump_module_doc (H := demo_json) (demo_world []) "ping" demo_state).2
     = [module_path "ping"]
  /\ (dump_module_doc (H := demo_json) failing_world "ping" demo_state).1
     = (dump_module_doc (H := demo_json) (demo_world []) "ping" demo_state).1
  /\ ~ exists is_skipped : res string -> bool,
         is_skipped (dump_module_doc (H := demo_json) failing_world "ping" demo_state).1 = true
         /\ is_skipped (dump_module_doc (H := demo_json) (demo_world []) "ping" demo_state).1
            = false.
Proof.
  split_and!; [reflexivity | reflexivity | reflexivity | ].
  intros (is_skipped & Hskip & Hsuccess).
  change (dump_module_doc (H := demo_json) failing_world "ping" demo_state).1
    with (Ok (A := string) "ping") in Hskip.
  change (dump_module_doc (H := demo_json) (demo_world []) "ping" demo_state).1
    with (Ok (A := string) "ping") in Hsuccess.
  congruence.
Qed.

Lemma dump_module_doc_sanitizes_witness :
  exists fields' entry' doc',
    (dump_module_doc (H := demo_json) (demo_world []) "ping" demo_state).1 = Ok "ping"
    /\ fs (dump_module_doc (H := demo_json) (demo_world []) "ping" demo_state).2
         !! module_path "ping"
       = Some (json_dumps (JsonLib := demo_json) (JObj fields') 2 true +:+ newline)
    /\ fields' !! "ping" = Some (JObj entry')
    /\ (forall key, key <> "ping" -> fields' !! key = ping_data !! key)
    /\ entry' !! "doc" = Some (JObj doc')
    /\ (forall key, key <> "doc" -> entry' !! key = ping_entry !! key)
    /\ (forall key, key ∈ volatile_fields -> doc' !! key = None)
    /\ (forall key, key ∉ volatile_fields -> doc' !! key = ping_doc !! key).
Proof.
  apply (dump_module_doc_sanitizes (J := demo_json) (demo_world []) "ping" demo_state
           ping_stdout ping_data ping_entry ping_doc); reflexivity.
Defined.

(** C4 fails on the code: the tool exits with status zero and prints
    text that is not JSON; the call raises [JSONDecodeError] and prints
    no notice, so it is not handled as a skip. *)
Lemma dump_module_doc_malformed_not_skipped :
  spawn (demo_world []) ["ansible-doc"; "-j"; "broken"] = Exited 0 "not json"
  /\ json_loads (JsonLib := demo_json) "not json" = None
  /\ dump_module_doc (H := demo_json) (demo_world []) "broken" demo_state
     = (Raise JSONDecodeError, demo_state)
  /\ ~ ((dump_module_doc (H := demo_json) (demo_world []) "broken" demo_state).1 = Ok "broken"
        /\ printed (dump_module_doc (H := demo_json) (demo_world []) "broken" demo_state).2
           = [skip_notice "broken"]).
Proof.
  split_and!; [reflexivity | reflexivity | reflexivity | ].
  intros [Hreturned _]. vm_compute in Hreturned. discriminate.
Qed.

Lemma dump_module_doc_malformed_output_witness :
  dump_module_doc (H := demo_json) (demo_world []) "empty" demo_state
  = (Raise (KeyError "empty"), demo_state).
Proof.
  apply (dump_module_doc_malformed_output (J := demo_json) (demo_world []) "empty" demo_state "{}");
    [reflexivity | ].
  right; left. exists ∅. split_and!; reflexivity.
Defined.

Lemma dump_module_doc_artifact_witness :
  fs demo_state !! "data/modules/ping.json" = Some "stale"
  /\ (dump_module_doc (H := demo_json) (demo_world []) "ping" demo_state).1 = Ok "ping"
  /\ opened (dump_module_doc (H := demo_json) (demo_world []) "ping" demo_state).2
     = ["data/modules/ping.json"]
  /\ fs (dump_module_doc (H := demo_json) (demo_world []) "ping" demo_state).2
       !! "data/modules/ping.json"
     = Some (json_dumps (JsonLib := demo_json)
               (sanitized (JObj ping_data) "ping" ping_entry ping_doc) 2 true +:+ newline).
Proof.
  split; [reflexivity | ].
  pose proof (dump_module_doc_artifact (J := demo_json) (demo_world []) "ping" demo_state
                ping_stdout (JObj ping_data) ping_entry ping_doc eq_refl eq_refl located_ping)
    as (Hreturned & Hopened & Hfile & _).
  split_and!; [exact Hreturned | exact Hopened | exact Hfile].
Defined.

Lemma dump_module_doc_reproducible_witness :
  (dump_module_doc (H := demo_json) (demo_world []) "ping" demo_state).1
  = (dump_module_doc (H := demo_json) (demo_world ["ping"]) "ping" blank).1
  /\ fs (dump_module_doc (H := demo_json) (demo_world []) "ping" demo_state).2
       !! module_path "ping"
     = fs (dump_module_doc (H := demo_json) (demo_world ["ping"]) "ping" blank).2
         !! module_path "ping".
Proof.
  destruct (dump_module_doc_reproducible (J := demo_json) (demo_world []) (demo_world ["ping"])
              "ping" demo_state blank eq_refl) as [Hsame Hfiles].
  split; [exact Hsame | ].
  destruct Hfiles as [(Hopened & _) | (content & -> & ->)].
  - vm_compute in Hopened. discriminate.
  - simpl. by rewrite !lookup_insert_eq.
Defined.

Lemma dump_module_doc_returns_its_argument_witness :
  exists r1 r2,
    (dump_module_doc (H := demo_json) (demo_world []) "ping" demo_state).1 = Ok r1
    /\ opened (dump_module_doc (H := demo_json) (demo_world []) "ping" demo_state).2
       = ["data/modules/ping.json"]
    /\ (dump_module_doc (H := demo_json) failing_world "ping" demo_state).1 = Ok r2
    /\ opened (dump_module_doc (H := demo_json) failing_world "ping" demo_state).2 = []
    /\ r1 = "ping" /\ r2 = "ping" /\ r1 = r2.
Proof.
  exists "ping", "ping".
  do 4 (split; [reflexivity | ]).
  exact (dump_module_doc_returns_its_argument (J := demo_json) (demo_world []) failing_world
           "ping" demo_state demo_state "ping" "ping" eq_refl eq_refl).
Defined.

(** C8 fails on the code: with two modules in the catalogue, one
    extracted and one skipped, the call evaluates to [None], not to a
    collection of two results. *)
Lemma doc_dump_returns_none :
  (doc_dump (H := demo_json) (demo_world ["ping"; "copy"]) demo_state).1 = Ok None
  /\ ~ exists results,
        (doc_dump (H := demo_json) (demo_world ["ping"; "copy"]) demo_state).1
        = Ok (Some results)
        /\ length results = 2.
Proof.
  split; [reflexivity | ].
  intros (results & Hreturned & _). vm_compute in Hreturned. discriminate.
Qed.

Lemma doc_dump_collects_every_result_witness :
  exists st1 st2,
    remove_artifacts demo_state = (Ok tt, st1)
    /\ collect_results (H := demo_json) (demo_world ["ping"; "copy"]) st1
       = (Ok ["ping"; "copy"], st2)
    /\ doc_dump (H := demo_json) (demo_world ["ping"; "copy"]) demo_state = (Ok None, st2)
    /\ bar_total st2 = 2
    /\ bar_completed st2 = 2.
Proof.
  apply (doc_dump_collects_every_result (J := demo_json) (demo_world ["ping"; "copy"]) demo_state).
  apply Forall_cons; split; [apply extracts_ping | ].
  apply Forall_cons; split; [apply extracts_copy | apply Forall_nil_2].
Defined.

Lemma doc_dump_removes_stale_artifacts_witness :
  fs demo_state !! module_path "setup" = Some "old"
  /\ fs (doc_dump (H := demo_json) (demo_world ["ping"; "copy"]) demo_state).2
       !! module_path "setup"
     = None.
Proof.
  split; [reflexivity | ].
  apply (doc_dump_removes_stale_artifacts (J := demo_json) (demo_world ["ping"; "copy"])
           demo_state "setup"); [ | reflexivity].
  apply (bool_decide_unpack _). vm_compute. exact I.
Defined.

Lemma map_type_range_witness :
  map_type "jsonarg" = Ok "object"
  /\ "jsonarg" ∈ source_tags /\ "object" ∈ canonical_tags.
Proof. split; [reflexivity | exact (map_type_range "jsonarg" "object" eq_refl)]. Defined.

Lemma dump_module_doc_wrong_shape_witness :
  dump_module_doc (H := demo_json) (demo_world []) "list" demo_state
  = (Raise TypeError, demo_state).
Proof.
  apply (dump_module_doc_wrong_shape (J := demo_json) (demo_world []) "list" demo_state
           "[]" (JArr [])); [reflexivity | reflexivity | ].
  apply document_not_a_dict. reflexivity.
Defined.

Lemma dump_module_doc_touches_only_its_artifact_witness :
  fs (dump_module_doc (H := demo_json) (demo_world []) "ping" demo_state).2
    !! "data/modules/setup.json"
  = Some "old".
Proof.
  rewrite (proj1 (dump_module_doc_touches_only_its_artifact (J := demo_json) (demo_world [])
                    "ping" demo_state) "data/modules/setup.json"); [reflexivity | discriminate].
Defined.

Lemma artifact_paths_distinct_witness : module_path "ping" <> module_path "copy".
Proof. apply artifact_paths_distinct. discriminate. Defined.

Lemma remove_artifacts_module_path_witness :
  fs hidden_state !! module_path "ping" = Some "stale"
  /\ fs (remove_artifacts hidden_state).2 !! module_path "ping" = None
  /\ fs hidden_state !! module_path ".ping" = Some "hidden"
  /\ fs (remove_artifacts hidden_state).2 !! module_path ".ping" = Some "hidden".
Proof.
  destruct (remove_artifacts_module_path hidden_state "ping" eq_refl) as (_ & Hgone & _).
  destruct (remove_artifacts_module_path hidden_state ".ping" eq_refl) as (_ & _ & Hkept).
  split_and!; [reflexivity | | reflexivity | ].
  - apply Hgone; [discriminate | reflexivity].
  - rewrite Hkept; [reflexivity | by right].
Defined.

Lemma doc_dump_leaves_other_files_witness :
  fs (doc_dump (H := demo_json) (demo_world ["ping"; "broken"; "copy"]) demo_state).2
    !! "data/modules/README"
  = Some "keep".
Proof.
  rewrite (doc_dump_leaves_other_files (J := demo_json) (demo_world ["ping"; "broken"; "copy"])
             demo_state "data/modules/README"); [reflexivity | reflexivity | ].
  intros module Hin.
  repeat (apply elem_of_cons in Hin as [-> | Hin]; [discriminate | ]).
  by apply elem_of_nil in Hin.
Defined.

Lemma doc_dump_skipped_module_has_no_artifact_witness :
  fs demo_state !! module_path "copy" = Some "stale too"
  /\ fs (doc_dump (H := demo_json) (demo_world ["ping"; "copy"]) demo_state).2
       !! module_path "copy"
     = None.
Proof.
  split; [reflexivity | ].
  apply (doc_dump_skipped_module_has_no_artifact (J := demo_json) (demo_world ["ping"; "copy"])
           demo_state "copy" 1%Z EmptyString);
    [ | | reflexivity | discriminate | reflexivity].
  - apply Forall_cons; split; [apply extracts_ping | ].
    apply Forall_cons; split; [apply extracts_copy | apply Forall_nil_2].
  - apply list_elem_of_further, list_elem_of_here.
Defined.

Lemma doc_dump_extracted_module_has_artifact_witness :
  fs (doc_dump (H := demo_json) (demo_world ["ping"; "copy"; "ping"]) demo_state).2
    !! module_path "ping"
  = Some (json_dumps (JsonLib := demo_json)
            (sanitized (JObj ping_data) "ping" ping_entry ping_doc) 2 true +:+ newline).
Proof.
  apply (doc_dump_extracted_module_has_artifact (J := demo_json)
           (demo_world ["ping"; "copy"; "ping"]) demo_state "ping" ping_stdout);
    [ | apply list_elem_of_here | reflexivity | reflexivity | exact located_ping].
  apply Forall_cons; split; [apply extracts_ping | ].
  apply Forall_cons; split; [apply extracts_copy | ].
  apply Forall_cons; split; [apply extracts_ping | apply Forall_nil_2].
Defined.

Lemma doc_dump_idempotent_witness :
  fs (doc_dump (H := demo_json) (demo_world ["ping"; "copy"])
        (doc_dump (H := demo_json) (demo_world ["ping"; "copy"]) demo_state).2).2
  = fs (doc_dump (H := demo_json) (demo_world ["ping"; "copy"]) demo_state).2.
Proof.
  apply (doc_dump_idempotent (J := demo_json) (demo_world ["ping"; "copy"]) demo_state).
  apply Forall_cons; split; [apply extracts_ping | ].
  apply Forall_cons; split; [apply extracts_copy | apply Forall_nil_2].
Defined.

Lemma doc_dump_aborts_on_malformed_output_witness :
  (doc_dump (H := demo_json) (demo_world ["ping"; "broken"; "copy"]) demo_state).1
  = Raise JSONDecodeError
  /\ bar_total (doc_dump (H := demo_json) (demo_world ["ping"; "broken"; "copy"]) demo_state).2
     = 3
  /\ bar_completed
       (doc_dump (H := demo_json) (demo_world ["ping"; "broken"; "copy"]) demo_state).2
     = 1.
Proof.
  apply (doc_dump_aborts_on_malformed_output (J := demo_json)
           (demo_world ["ping"; "broken"; "copy"]) demo_state ["ping"] "broken" ["copy"]
           "not json"); [reflexivity | | reflexivity | by left].
  apply Forall_cons; split; [apply extracts_ping | apply Forall_nil_2].
Defined.

Lemma main_builds_every_schema_witness :
  (main demo_builder blank).1 = Ok tt
  /\ fs (main demo_builder blank).2 !! "/srv/schemas/f/ansible-galaxy.json"
     = Some (demo_schema GalaxyFileModel +:+ newline).
Proof.
  destruct (main_builds_every_schema demo_builder demo_schema blank (fun m => eq_refl))
    as (Hreturned & _ & Hfiles & _).
  split; [exact Hreturned | ].
  apply (Hfiles "galaxy" GalaxyFileModel "ansible-galaxy"); [ | reflexivity].
  apply list_elem_of_further, list_elem_of_here.
Defined.

Lemma main_stops_at_first_failure_witness :
  (main failing_builder blank).1
  = Raise (NotImplementedError "Unable to map ansible type binary to JSON Schema type.")
  /\ fs (main failing_builder blank).2 !! "/srv/schemas/f/ansible-tasks.json"
     = Some EmptyString
  /\ fs (main failing_builder blank).2 !! "/srv/schemas/f/ansible-vars.json" = None.
Proof.
  destruct (main_stops_at_first_failure failing_builder demo_schema blank
              [("ansible-lint", AnsibleLintModel); ("galaxy", GalaxyFileModel);
               ("meta", MetaModel); ("molecule", MoleculeScenarioModel);
               ("playbook", PlaybookFileModel); ("requirements", RequirementsFileModel)]
              "tasks" TasksListModel [("vars", VarsModel); ("zuul", ZuulConfigModel)]
              "ansible-tasks"
              (NotImplementedError "Unable to map ansible type binary to JSON Schema type."))
    as (Hraised & Hempty & _); [reflexivity | | reflexivity | reflexivity | ].
  - intros item Hin.
    repeat (apply elem_of_cons in Hin as [-> | Hin]; [reflexivity | ]).
    by apply elem_of_nil in Hin.
  - split_and!; [exact Hraised | exact Hempty | reflexivity].
Defined.

Lemma demo_py_eq_str (s : string) (v : json) : demo_py_eq (JStr s) v = true <-> v = JStr s.
Proof.
  destruct v; simpl; try (split; [discriminate | discriminate]).
  rewrite bool_decide_eq_true. split; [by intros -> | by intros [= ->]].
Defined.

Lemma fetch_platforms_collects_tidy_witness :
  fetch_platforms (H := demo_py) demo_galaxy 3 first_page []
  = Some (Ok [("Fedora", [JStr "38"; JStr "39"]); ("EL", [JNull])])
  /\ tidy (H := demo_py) [("Fedora", [JStr "38"; JStr "39"]); ("EL", [JNull])].
Proof.
  split; [reflexivity | ].
  apply (fetch_platforms_collects_tidy (P := demo_py) demo_py_eq_str demo_galaxy 3).
  reflexivity.
Defined.

Lemma add_platform_without_release_witness :
  add_platform (H := demo_py) [("Fedora", [JStr "38"])] (JObj (<["name" := JStr "EL"]> ∅))
  = Ok [("Fedora", [JStr "38"]); ("EL", [JNull])].
Proof.
  apply (add_platform_without_release (P := demo_py) demo_py_eq_str [("Fedora", [JStr "38"])]
           (<["name" := JStr "EL"]> ∅) "EL"); [reflexivity | discriminate | reflexivity | reflexivity].
Defined.

Lemma add_platform_reserved_release_witness :
  add_platform (H := demo_py) [] (platform "Fedora" (JStr "any")) = Ok [("Fedora", [])].
Proof.
  apply (add_platform_reserved_release (P := demo_py) demo_py_eq_str [] _ "Fedora" "any");
    [reflexivity | discriminate | reflexivity | apply list_elem_of_here].
Defined.

Lemma add_platform_passes_over_witness :
  add_platform (H := demo_py) [("Fedora", [JStr "38"])] (JStr "junk")
  = Ok [("Fedora", [JStr "38"])].
Proof. apply (add_platform_passes_over (P := demo_py)). exact I. Defined.

Lemma fetch_platforms_single_page_witness :
  fetch_platforms (H := demo_py) small_galaxy 2 first_page []
  = Some (Ok [("Fedora", [JStr "38"; JStr "39"])]).
Proof.
  rewrite (fetch_platforms_single_page (P := demo_py) small_galaxy 2
             (<["next_link" := JNull]>
              (<["results" := JArr [platform "Fedora" (JStr "38");
                                    platform "Fedora" (JStr "39")]]> ∅))
             [platform "Fedora" (JStr "38"); platform "Fedora" (JStr "39")]);
    [reflexivity | reflexivity | reflexivity | reflexivity | lia].
Defined.

Lemma dump_galaxy_platforms_effect_witness :
  exists st',
    dump_galaxy_platforms (H := demo_py) offline_galaxy 3 demo_state
    = Some (Raise RequestException, st')
    /\ fs st' = fs demo_state /\ opened st' = opened demo_state.
Proof.
  eexists. split; [reflexivity | ].
  refine (proj2 (proj2 (proj2 (dump_galaxy_platforms_effect (P := demo_py) demo_py_eq_str
                                 offline_galaxy 3 demo_state (Raise RequestException) _ eq_refl)))).
Defined.
